(** * MyFox portable launcher ([tools/portable_launcher.c])

    A shallow embedding of [wWinMain] and of the Win32 calls it makes,
    followed by the properties of the launcher: candidate priority, the
    failure paths, the command line, the working directory, directory
    creation, exit codes, idempotence and buffer capacities.

    [wWinMain] is embedded statement by statement in a state monad with
    early [return].  The Win32 and strsafe routines belong to the operating
    system, not to the launcher; each is modelled after its documentation,
    on a machine that holds the path of the running executable, the file
    system, the answers of directory and process creation, the arrays of
    the frame and the list of the calls made. *)

From Stdlib Require Import ZArith Ascii String Decimal.
From Stdlib Require DecimalFacts DecimalN.
From stdpp Require Import base decidable option list gmap.

Local Open Scope Z_scope.

(** ** Wide strings

    A [WCHAR] string is kept as the sequence of code units that precede its
    terminator.  A code unit is a [positive], so the terminating zero can
    not occur inside a string. *)

Definition WCHAR := positive.
Abbreviation wstring := (list WCHAR).

Definition wchar_of_ascii (c : ascii) : WCHAR := Pos.of_nat (nat_of_ascii c).

(** [L s] is the wide literal [L"s"] of the source. *)
Fixpoint L (s : string) : wstring :=
  match s with
  | EmptyString => []
  | String c s' => wchar_of_ascii c :: L s'
  end.

Definition BACKSLASH : WCHAR := 92%positive.
Definition COLON : WCHAR := 58%positive.
Definition PERCENT : WCHAR := 37%positive.
Definition DQUOTE : WCHAR := 34%positive.
Definition NEWLINE : WCHAR := 10%positive.
Definition LOWER_S : WCHAR := 115%positive.
Definition LOWER_L : WCHAR := 108%positive.
Definition LOWER_U : WCHAR := 117%positive.

(** [wcslen]: the number of code units before the terminator. *)
Definition wcslen (s : wstring) : Z := Z.of_nat (length s).

(** ** Constants of the Windows headers *)

Definition MAX_PATH : Z := 260.
Definition INVALID_FILE_ATTRIBUTES : Z := 0xFFFFFFFF.
Definition FILE_ATTRIBUTE_DIRECTORY : Z := 0x10.
Definition FILE_ATTRIBUTE_ARCHIVE : Z := 0x20.
Definition FILE_ATTRIBUTE_REPARSE_POINT : Z := 0x400.
Definition MB_ICONERROR : Z := 0x10.
Definition DETACHED_PROCESS : Z := 0x8.
Definition S_OK : Z := 0.
Definition STRSAFE_E_INSUFFICIENT_BUFFER : Z := 0x8007007A.
Definition ERROR_FILE_NOT_FOUND : Z := 2.
Definition ERROR_INSUFFICIENT_BUFFER : Z := 122.
Definition ERROR_ALREADY_EXISTS : Z := 183.

(** A [DWORD] holds a value modulo [2^32]. *)
Definition DWORD_of (n : Z) : Z := n mod 2 ^ 32.

(** ** [printf]-style formatting, as far as the launcher uses it

    The conversions of the source are [%s] (a wide string) and [%lu] (an
    unsigned long, printed in decimal).  An argument is inserted as it is:
    it is not scanned for conversions. *)

Inductive format_value :=
  | ValS (s : wstring)
  | ValLU (n : Z).

Fixpoint wdigits (d : Decimal.uint) : wstring :=
  match d with
  | Nil => []
  | D0 d' => 48%positive :: wdigits d'
  | D1 d' => 49%positive :: wdigits d'
  | D2 d' => 50%positive :: wdigits d'
  | D3 d' => 51%positive :: wdigits d'
  | D4 d' => 52%positive :: wdigits d'
  | D5 d' => 53%positive :: wdigits d'
  | D6 d' => 54%positive :: wdigits d'
  | D7 d' => 55%positive :: wdigits d'
  | D8 d' => 56%positive :: wdigits d'
  | D9 d' => 57%positive :: wdigits d'
  end.

Definition decimal_of_ulong (n : Z) : wstring :=
  wdigits (N.to_uint (Z.to_N (DWORD_of n))).

Fixpoint vformat (fmt : wstring) (args : list format_value) : wstring :=
  match fmt with
  | [] => []
  | c :: rest =>
      if Pos.eqb c PERCENT then
        match rest with
        | d :: rest' =>
            if Pos.eqb d LOWER_S then
              match args with
              | ValS s :: args' => s ++ vformat rest' args'
              | _ => vformat rest' (tail args)
              end
            else if Pos.eqb d LOWER_L then
              match rest' with
              | e :: rest'' =>
                  if Pos.eqb e LOWER_U then
                    match args with
                    | ValLU n :: args' => decimal_of_ulong n ++ vformat rest'' args'
                    | _ => vformat rest'' (tail args)
                    end
                  else vformat rest'' args
              | [] => []
              end
            else d :: vformat rest' args
        | [] => []
        end
      else c :: vformat rest args
  end.

(** What a [StringCch*] routine leaves in a destination of [cchDest] code
    units: the whole string when it fits with its terminator, and otherwise
    its first [cchDest - 1] code units, reported as
    [STRSAFE_E_INSUFFICIENT_BUFFER]. *)
Definition strsafe_fit (cchDest : Z) (s : wstring) : Z * wstring :=
  if wcslen s <? cchDest then (S_OK, s)
  else (STRSAFE_E_INSUFFICIENT_BUFFER, take (Z.to_nat (cchDest - 1)) s).

(** ** [PathRemoveFileSpecW] on a string

    The routine removes the trailing file name and backslash from a path.
    The file specification starts after the last backslash, or after a drive
    colon (and the backslash that follows it); up to two leading
    backslashes are skipped first, so [C:\MyFox\MyFox.exe] becomes
    [C:\MyFox], and [C:\MyFox.exe] becomes the root of the drive.  [file_spec_scan s i spec] scans [s],
    whose first code unit has index [i], and returns the index where the
    file specification starts. *)

Fixpoint file_spec_scan (s : wstring) (i spec : nat) : nat :=
  match s with
  | [] => spec
  | c :: s' =>
      if Pos.eqb c BACKSLASH then file_spec_scan s' (S i) i
      else if Pos.eqb c COLON then
        match s' with
        | [] => S i
        | d :: s'' =>
            file_spec_scan s'' (S (S i))
              (if Pos.eqb d BACKSLASH then S (S i) else S i)
        end
      else file_spec_scan s' (S i) spec
  end.

Definition skip_leading_backslash (st : wstring * nat) : wstring * nat :=
  match fst st with
  | c :: s' => if Pos.eqb c BACKSLASH then (s', S (snd st)) else st
  | [] => st
  end.

Definition file_spec_index (path : wstring) : nat :=
  let '(s, i) := skip_leading_backslash (skip_leading_backslash (path, 0%nat)) in
  file_spec_scan s i i.

Definition remove_file_spec (path : wstring) : wstring :=
  take (file_spec_index path) path.

(** ** The machine: the operating system and the frame of [wWinMain] *)

(** What the file system holds at a path. *)
Inductive entry := RegularFile | Directory | ReparsePoint.

Definition attributes_of (e : entry) : Z :=
  match e with
  | RegularFile => FILE_ATTRIBUTE_ARCHIVE
  | Directory => FILE_ATTRIBUTE_DIRECTORY
  | ReparsePoint => FILE_ATTRIBUTE_REPARSE_POINT
  end.

(** The fixed-size [WCHAR] arrays declared by [wWinMain]. *)
Inductive local := base | ff_exe | profile | data_dir | ff_dir | cmdline | err_msg.

Definition local_index (b : local) : nat :=
  match b with
  | base => 0 | ff_exe => 1 | profile => 2 | data_dir => 3
  | ff_dir => 4 | cmdline => 5 | err_msg => 6
  end%nat.

Definition local_eqb (b b' : local) : bool :=
  Nat.eqb (local_index b) (local_index b').

Definition ARRAYSIZE (b : local) : Z :=
  match b with
  | base => MAX_PATH
  | ff_exe | profile | data_dir | ff_dir => MAX_PATH + 64
  | cmdline => MAX_PATH * 3
  | err_msg => 256
  end.

Record PROCESS_INFORMATION := { hProcess : Z; hThread : Z }.

(** A process started by [CreateProcessW]. *)
Record child := {
  child_application : wstring;
  child_command_line : wstring;
  child_creation_flags : Z;
  child_directory : wstring;
  child_info : PROCESS_INFORMATION }.

(** The calls that reach the operating system, in program order. *)
Inductive event :=
  | EvMessageBox (text caption : wstring) (type : Z)
  | EvGetFileAttributes (path : wstring)
  | EvCreateDirectory (path : wstring)
  | EvCreateProcess (application command_line : wstring) (flags : Z)
      (directory : wstring)
  | EvCloseHandle (h : Z).

Record machine := {
  (** the path of the running executable; [None] when the query fails *)
  module_file_name : option wstring;
  (** the file system *)
  files : gmap wstring entry;
  (** why a directory that does not exist yet can not be created at a path
      ([None]: it can) *)
  mkdir_fault : wstring -> option Z;
  (** what starting a process does, from the file system, the application,
      the command line and the directory: an error code or the handles *)
  spawn : gmap wstring entry -> wstring -> wstring -> wstring ->
          Z + PROCESS_INFORMATION;
  (** the processes started so far *)
  children : list child;
  (** the value [GetLastError] reports *)
  last_error : Z;
  (** the arrays of the frame, and [pi] *)
  frame : local -> wstring;
  pi : PROCESS_INFORMATION;
  (** the calls made so far, the latest last *)
  trace : list event }.

Definition set_files (f : gmap wstring entry) (m : machine) : machine :=
  {| module_file_name := module_file_name m; files := f;
     mkdir_fault := mkdir_fault m; spawn := spawn m; children := children m;
     last_error := last_error m; frame := frame m; pi := pi m;
     trace := trace m |}.

Definition set_children (c : list child) (m : machine) : machine :=
  {| module_file_name := module_file_name m; files := files m;
     mkdir_fault := mkdir_fault m; spawn := spawn m; children := c;
     last_error := last_error m; frame := frame m; pi := pi m;
     trace := trace m |}.

Definition set_last_error (e : Z) (m : machine) : machine :=
  {| module_file_name := module_file_name m; files := files m;
     mkdir_fault := mkdir_fault m; spawn := spawn m; children := children m;
     last_error := DWORD_of e; frame := frame m; pi := pi m;
     trace := trace m |}.

Definition set_pi (p : PROCESS_INFORMATION) (m : machine) : machine :=
  {| module_file_name := module_file_name m; files := files m;
     mkdir_fault := mkdir_fault m; spawn := spawn m; children := children m;
     last_error := last_error m; frame := frame m; pi := p;
     trace := trace m |}.

(** [store b s m]: the array [b] now holds [s]. *)
Definition store (b : local) (s : wstring) (m : machine) : machine :=
  {| module_file_name := module_file_name m; files := files m;
     mkdir_fault := mkdir_fault m; spawn := spawn m; children := children m;
     last_error := last_error m;
     frame := fun b' => if local_eqb b' b then s else frame m b';
     pi := pi m; trace := trace m |}.

Definition log (e : event) (m : machine) : machine :=
  {| module_file_name := module_file_name m; files := files m;
     mkdir_fault := mkdir_fault m; spawn := spawn m; children := children m;
     last_error := last_error m; frame := frame m; pi := pi m;
     trace := trace m ++ [e] |}.

(** A string argument: one of the arrays of the frame, or a literal. *)
Inductive LPCWSTR :=
  | Buf (b : local)
  | Lit (s : wstring).

Coercion Buf : local >-> LPCWSTR.

Definition deref (m : machine) (p : LPCWSTR) : wstring :=
  match p with
  | Buf b => frame m b
  | Lit s => s
  end.

(** An argument of a formatting call, evaluated when the call is made. *)
Inductive format_arg :=
  | ArgS (p : LPCWSTR)
  | ArgLU (n : Z).

Definition eval_arg (m : machine) (a : format_arg) : format_value :=
  match a with
  | ArgS p => ValS (deref m p)
  | ArgLU n => ValLU n
  end.

(** ** Statements: state passing with [return]

    A statement either goes on with a value or leaves [wWinMain] with an
    exit code. *)

Inductive outcome (A : Type) :=
  | Next (a : A)
  | Exit (code : Z).

Arguments Next {A} a.
Arguments Exit {A} code.

Definition M (A : Type) : Type := machine -> outcome A * machine.

#[global] Instance M_ret : MRet M := fun A a m => (Next a, m).

#[global] Instance M_bind : MBind M := fun A B f c m =>
  match c m with
  | (Next a, m') => f a m'
  | (Exit code, m') => (Exit code, m')
  end.

(** [return code;] *)
Definition Return {A : Type} (code : Z) : M A := fun m => (Exit code, m).

(** [if (c) { body }] *)
Definition when (c : bool) (body : M unit) : M unit :=
  if c then body else mret tt.

(** ** The Win32 calls of the launcher *)

(** [GetModuleFileNameW(NULL, lpFilename, nSize)].  A path that does not fit
    with its terminator is cut to [nSize - 1] code units and [nSize] is
    returned; a failed query returns 0. *)
Definition GetModuleFileNameW (lpFilename : local) (nSize : Z) : M Z := fun m =>
  match module_file_name m with
  | None => (Next 0, m)
  | Some p =>
      if wcslen p <? nSize then (Next (wcslen p), store lpFilename p m)
      else (Next nSize,
            set_last_error ERROR_INSUFFICIENT_BUFFER
              (store lpFilename (take (Z.to_nat (nSize - 1)) p) m))
  end.

(** [PathRemoveFileSpecW(pszPath)], in place; reports whether something was
    removed. *)
Definition PathRemoveFileSpecW (pszPath : local) : M bool := fun m =>
  let p := frame m pszPath in
  (Next (file_spec_index p <? length p)%nat,
   store pszPath (remove_file_spec p) m).

Definition StringCchPrintfW (pszDest : local) (cchDest : Z)
    (pszFormat : wstring) (args : list format_arg) : M Z := fun m =>
  let r := strsafe_fit cchDest (vformat pszFormat (map (eval_arg m) args)) in
  (Next (fst r), store pszDest (snd r) m).

Definition StringCchCopyW (pszDest : local) (cchDest : Z) (pszSrc : LPCWSTR)
    : M Z := fun m =>
  let r := strsafe_fit cchDest (deref m pszSrc) in
  (Next (fst r), store pszDest (snd r) m).

(** [GetFileAttributesW(lpFileName)]: the attributes of whatever is at the
    path, of any kind. *)
Definition GetFileAttributesW (lpFileName : LPCWSTR) : M Z := fun m =>
  let p := deref m lpFileName in
  let m' := log (EvGetFileAttributes p) m in
  match files m !! p with
  | Some e => (Next (attributes_of e), m')
  | None => (Next INVALID_FILE_ATTRIBUTES, set_last_error ERROR_FILE_NOT_FOUND m')
  end.

(** [CreateDirectoryW(lpPathName, NULL)]: fails with [ERROR_ALREADY_EXISTS]
    when something is at the path, and with the machine's fault for the path
    when there is one. *)
Definition CreateDirectoryW (lpPathName : LPCWSTR) : M bool := fun m =>
  let p := deref m lpPathName in
  let m' := log (EvCreateDirectory p) m in
  match files m !! p with
  | Some _ => (Next false, set_last_error ERROR_ALREADY_EXISTS m')
  | None =>
      match mkdir_fault m p with
      | Some e => (Next false, set_last_error e m')
      | None => (Next true, set_files (<[p := Directory]> (files m)) m')
      end
  end.

(** [CreateProcessW(lpApplicationName, lpCommandLine, NULL, NULL, FALSE,
    dwCreationFlags, NULL, lpCurrentDirectory, &si, &pi)] *)
Definition CreateProcessW (lpApplicationName lpCommandLine : LPCWSTR)
    (dwCreationFlags : Z) (lpCurrentDirectory : LPCWSTR) : M bool := fun m =>
  let a := deref m lpApplicationName in
  let c := deref m lpCommandLine in
  let d := deref m lpCurrentDirectory in
  let m' := log (EvCreateProcess a c dwCreationFlags d) m in
  match spawn m (files m) a c d with
  | inl e => (Next false, set_last_error e m')
  | inr p =>
      (Next true,
       set_pi p
         (set_children
            (children m ++
             [{| child_application := a; child_command_line := c;
                 child_creation_flags := dwCreationFlags;
                 child_directory := d; child_info := p |}]) m'))
  end.

Definition GetLastError : M Z := fun m => (Next (last_error m), m).

Definition MessageBoxW (lpText lpCaption : LPCWSTR) (uType : Z) : M Z := fun m =>
  (Next 1, log (EvMessageBox (deref m lpText) (deref m lpCaption) uType) m).

Definition CloseHandle (h : Z) : M bool := fun m =>
  (Next true, log (EvCloseHandle h) m).

Definition load_pi : M PROCESS_INFORMATION := fun m => (Next (pi m), m).

Definition init_pi : M unit := fun m =>
  (Next tt, set_pi {| hProcess := 0; hThread := 0 |} m).

(** ** [wWinMain] *)

Definition fmt_firefox64 : wstring := L "%s\App\Firefox64\firefox.exe".
Definition fmt_firefox : wstring := L "%s\App\Firefox\firefox.exe".
Definition fmt_data : wstring := L "%s\Data".
Definition fmt_profile : wstring := L "%s\Data\profile".
Definition fmt_cmdline : wstring :=
  [DQUOTE] ++ L "%s" ++ [DQUOTE] ++ L " -profile " ++
  [DQUOTE] ++ L "%s" ++ [DQUOTE] ++ L " -no-remote".
Definition fmt_err_msg : wstring :=
  L "Failed to launch Firefox." ++ [NEWLINE; NEWLINE] ++ L "Error code: %lu".
Definition msg_caption : wstring := L "MyFox - Error".
Definition msg_no_path : wstring := L "Failed to get executable path.".
Definition msg_not_found : wstring :=
  L "Firefox not found." ++ [NEWLINE; NEWLINE] ++
  L "Expected at:" ++ [NEWLINE] ++ L "  App\Firefox64\firefox.exe" ++
  [NEWLINE] ++ L "  App\Firefox\firefox.exe".

Definition wWinMain : M Z :=
  len ← GetModuleFileNameW base MAX_PATH;
  when ((len =? 0) || (MAX_PATH <=? len)) (
    MessageBoxW (Lit msg_no_path) (Lit msg_caption) MB_ICONERROR;;
    Return 1);;
  PathRemoveFileSpecW base;;
  StringCchPrintfW ff_exe (ARRAYSIZE ff_exe) fmt_firefox64 [ArgS base];;
  a ← GetFileAttributesW ff_exe;
  when (a =? INVALID_FILE_ATTRIBUTES) (
    StringCchPrintfW ff_exe (ARRAYSIZE ff_exe) fmt_firefox [ArgS base];;
    a' ← GetFileAttributesW ff_exe;
    when (a' =? INVALID_FILE_ATTRIBUTES) (
      MessageBoxW (Lit msg_not_found) (Lit msg_caption) MB_ICONERROR;;
      Return 1));;
  StringCchPrintfW data_dir (ARRAYSIZE data_dir) fmt_data [ArgS base];;
  StringCchPrintfW profile (ARRAYSIZE profile) fmt_profile [ArgS base];;
  CreateDirectoryW data_dir;;
  CreateDirectoryW profile;;
  StringCchPrintfW cmdline (ARRAYSIZE cmdline) fmt_cmdline
    [ArgS ff_exe; ArgS profile];;
  StringCchCopyW ff_dir (ARRAYSIZE ff_dir) ff_exe;;
  PathRemoveFileSpecW ff_dir;;
  init_pi;;
  ok ← CreateProcessW ff_exe cmdline DETACHED_PROCESS ff_dir;
  when (negb ok) (
    e ← GetLastError;
    StringCchPrintfW err_msg (ARRAYSIZE err_msg) fmt_err_msg [ArgLU e];;
    MessageBoxW err_msg (Lit msg_caption) MB_ICONERROR;;
    Return 1);;
  p ← load_pi;
  CloseHandle (hProcess p);;
  p' ← load_pi;
  CloseHandle (hThread p');;
  Return 0.

(** The launcher started on a machine: its exit code and the machine it
    leaves.  [wWinMain] has no path that falls off its end; the value of its
    last statement stands for one. *)
Definition run (m : machine) : Z * machine :=
  match wWinMain m with
  | (Next code, m') => (code, m')
  | (Exit code, m') => (code, m')
  end.

Definition exit_code (m : machine) : Z := fst (run m).
Definition after (m : machine) : machine := snd (run m).

(** A machine about to start the launcher: nothing called yet, no process
    started. *)
Definition boot (exe : option wstring) (fs : gmap wstring entry)
    (fault : wstring -> option Z)
    (sp : gmap wstring entry -> wstring -> wstring -> wstring ->
          Z + PROCESS_INFORMATION)
    (garbage : local -> wstring) : machine :=
  {| module_file_name := exe; files := fs; mkdir_fault := fault; spawn := sp;
     children := []; last_error := 0; frame := garbage;
     pi := {| hProcess := 0; hThread := 0 |}; trace := [] |}.

(** An installation under [C:\MyFox] with the 64-bit Firefox, on which
    every creation succeeds. *)
Definition demo_fs : gmap wstring entry :=
  {[ L "C:\MyFox\App\Firefox64\firefox.exe" := RegularFile ]}.

Definition demo : machine :=
  boot (Some (L "C:\MyFox\MyFox.exe")) demo_fs (fun _ => None)
    (fun _ _ _ _ => inr {| hProcess := 4; hThread := 8 |}) (fun _ => []).

(** * Vocabulary of the properties *)

(** The paths and the command line, written out. *)
Definition InstallRoot (exe : wstring) : wstring := remove_file_spec exe.
Definition candidate64 (root : wstring) : wstring :=
  root ++ L "\App\Firefox64\firefox.exe".
Definition candidate32 (root : wstring) : wstring :=
  root ++ L "\App\Firefox\firefox.exe".
Definition DataDirectory (root : wstring) : wstring := root ++ L "\Data".
Definition ProfileDirectory (root : wstring) : wstring :=
  root ++ L "\Data\profile".
Definition command_line (target root : wstring) : wstring :=
  [DQUOTE] ++ target ++ [DQUOTE] ++ L " -profile " ++
  [DQUOTE] ++ ProfileDirectory root ++ [DQUOTE] ++ L " -no-remote".

(** A string without backslash and colon. *)
Definition plain (f : wstring) : Prop :=
  Forall (fun c => c <> BACKSLASH /\ c <> COLON) f.

(** The file system after an attempt to create a directory. *)
Definition mkdir_files (fault : wstring -> option Z) (p : wstring)
    (fs : gmap wstring entry) : gmap wstring entry :=
  match fs !! p with
  | Some _ => fs
  | None =>
      match fault p with
      | Some _ => fs
      | None => <[p := Directory]> fs
      end
  end.

(** The machine after [CreateDirectoryW], whatever the call reports.  It is
    sealed: the proofs below go through the lemmas about it. *)
Definition made_def (x : LPCWSTR) (m : machine) : machine :=
  snd (CreateDirectoryW x m).
Definition made_aux : seal (@made_def).
Proof. by eexists. Qed.
Definition made : LPCWSTR -> machine -> machine := made_aux.(unseal).

(** The query for the executable's path fails: the call itself fails, or
    the path does not fit in [MAX_PATH] code units with its terminator (an
    empty path is reported like a failed call). *)
Definition query_fails (m : machine) : Prop :=
  match module_file_name m with
  | None => True
  | Some p => wcslen p = 0 \/ MAX_PATH <= wcslen p
  end.

(** The file system once both directories have been attempted. *)
Definition prepared_files (m : machine) (b : wstring) : gmap wstring entry :=
  mkdir_files (mkdir_fault m) (ProfileDirectory b)
    (mkdir_files (mkdir_fault m) (DataDirectory b) (files m)).

(** What the operating system answers to the launch of target [t]. *)
Definition spawn_result (m : machine) (b t : wstring)
    : Z + PROCESS_INFORMATION :=
  spawn m (prepared_files m b) t (command_line t b) (remove_file_spec t).

(** The calls of a launch, the result of the process creation, and what
    follows it. *)
Definition launch_events (b t : wstring) : list event :=
  [EvCreateDirectory (DataDirectory b);
   EvCreateDirectory (ProfileDirectory b);
   EvCreateProcess t (command_line t b) DETACHED_PROCESS (remove_file_spec t)].

Definition launch_code (r : Z + PROCESS_INFORMATION) : Z :=
  match r with inl _ => 1 | inr _ => 0 end.

Definition launch_closing (r : Z + PROCESS_INFORMATION) : list event :=
  match r with
  | inl e =>
      [EvMessageBox
         (snd (strsafe_fit (ARRAYSIZE err_msg)
                 (vformat fmt_err_msg [ValLU (DWORD_of e)])))
         msg_caption MB_ICONERROR]
  | inr i => [EvCloseHandle (hProcess i); EvCloseHandle (hThread i)]
  end.

Definition launch_children (b t : wstring) (r : Z + PROCESS_INFORMATION)
    : list child :=
  match r with
  | inl _ => []
  | inr i =>
      [{| child_application := t; child_command_line := command_line t b;
          child_creation_flags := DETACHED_PROCESS;
          child_directory := remove_file_spec t; child_info := i |}]
  end.

(** The launcher does not change what the operating system will answer. *)
Definition same_system (m m' : machine) : Prop :=
  module_file_name m' = module_file_name m /\
  mkdir_fault m' = mkdir_fault m /\
  spawn m' = spawn m.

(** The machine [m'] that a launch of target [t], found after the calls
    [probes], leaves behind [m]. *)
Definition launched (m : machine) (b t : wstring) (probes : list event)
    (m' : machine) : Prop :=
  let r := spawn_result m b t in
  trace m' = trace m ++ probes ++ launch_events b t ++ launch_closing r /\
  files m' = prepared_files m b /\
  children m' = children m ++ launch_children b t r /\
  frame m' base = b /\ frame m' ff_exe = t /\
  frame m' data_dir = DataDirectory b /\
  frame m' profile = ProfileDirectory b /\
  frame m' cmdline = command_line t b /\
  frame m' ff_dir = remove_file_spec t /\
  same_system m m'.

(** The root directory the launcher works from, when the query for the
    executable's path passes the guard. *)
Definition resolve (m : machine) : option wstring :=
  match module_file_name m with
  | Some p =>
      if (wcslen p =? 0) || (MAX_PATH <=? wcslen p) then None
      else Some (InstallRoot p)
  | None => None
  end.

(** The target the search settles on. *)
Definition select (fs : gmap wstring entry) (b : wstring) : option wstring :=
  match fs !! candidate64 b with
  | Some _ => Some (candidate64 b)
  | None =>
      match fs !! candidate32 b with
      | Some _ => Some (candidate32 b)
      | None => None
      end
  end.

(** The existence checks the search makes. *)
Definition probes (fs : gmap wstring entry) (b : wstring) : list event :=
  match fs !! candidate64 b with
  | Some _ => [EvGetFileAttributes (candidate64 b)]
  | None =>
      [EvGetFileAttributes (candidate64 b); EvGetFileAttributes (candidate32 b)]
  end.

(** The calls one run of the launcher makes. *)
Definition calls (m : machine) : list event :=
  drop (length (trace m)) (trace (after m)).

(** Sample installations under [C:\MyFox]. *)
Definition demo_exe : wstring := L "C:\MyFox\MyFox.exe".
Definition demo_root : wstring := L "C:\MyFox".

Definition demo_handles : PROCESS_INFORMATION :=
  {| hProcess := 4; hThread := 8 |}.

Definition spawn_ok
    : gmap wstring entry -> wstring -> wstring -> wstring ->
      Z + PROCESS_INFORMATION :=
  fun _ _ _ _ => inr demo_handles.

(** Both candidates are installed. *)
Definition demo_both : machine :=
  boot (Some demo_exe)
    {[ candidate64 demo_root := RegularFile;
       candidate32 demo_root := RegularFile ]}
    (fun _ => None) spawn_ok (fun _ => []).


(** Nothing is installed. *)
Definition demo_bare : machine :=
  boot (Some demo_exe) ∅ (fun _ => None) spawn_ok (fun _ => []).

(** The query for the executable's path fails. *)
Definition demo_lost : machine :=
  boot None demo_fs (fun _ => None) spawn_ok (fun _ => []).

(** No directory can be created (error 5, access denied). *)
Definition demo_locked : machine :=
  boot (Some demo_exe) demo_fs (fun _ => Some 5) spawn_ok (fun _ => []).

(** The data directories exist already. *)
Definition demo_installed : machine :=
  boot (Some demo_exe)
    {[ candidate64 demo_root := RegularFile;
       DataDirectory demo_root := Directory;
       ProfileDirectory demo_root := Directory ]}
    (fun _ => None) spawn_ok (fun _ => []).

(** Why a run fails. *)
Inductive failure :=
  | PathUnresolvable
  | TargetNotFound
  | SpawnFailed (error : Z).

(** What a run comes to, read off the machine it starts on. *)
Definition verdict (m : machine) : failure + PROCESS_INFORMATION :=
  match resolve m with
  | None => inl PathUnresolvable
  | Some b =>
      match select (files m) b with
      | None => inl TargetNotFound
      | Some t =>
          match spawn_result m b t with
          | inl e => inl (SpawnFailed e)
          | inr i => inr i
          end
      end
  end.

(** The run started a process. *)
Definition spawned (m : machine) : Prop :=
  exists c, children (after m) = children m ++ [c].

(** Nothing more can happen at [p]: something is there, or nothing can be
    created there. *)
Definition settled (f : wstring -> option Z) (p : wstring)
    (fs : gmap wstring entry) : Prop :=
  is_Some (fs !! p) \/ is_Some (f p).

(** [fits x s]: the array [x] takes [s] with its terminator, so a
    [StringCch] routine stores all of [s] there and reports [S_OK]. *)
Definition fits (x : local) (s : wstring) : Prop :=
  wcslen s < ARRAYSIZE x /\ strsafe_fit (ARRAYSIZE x) s = (S_OK, s).

(** The calls of a run, read off the machine it starts on. *)
Definition expected_calls (m : machine) : list event :=
  match resolve m with
  | None => [EvMessageBox msg_no_path msg_caption MB_ICONERROR]
  | Some b =>
      match select (files m) b with
      | None =>
          [EvGetFileAttributes (candidate64 b);
           EvGetFileAttributes (candidate32 b);
           EvMessageBox msg_not_found msg_caption MB_ICONERROR]
      | Some t =>
          probes (files m) b ++ launch_events b t ++
          launch_closing (spawn_result m b t)
      end
  end.


(** The sample installation on which process creation fails with error 740
    (elevation required). *)
Definition demo_refused : machine :=
  boot (Some demo_exe) demo_fs (fun _ => None) (fun _ _ _ _ => inl 740)
    (fun _ => []).

(** The sample installation started with leftovers in the arrays, in [pi],
    in the last error and in the list of calls. *)
Definition demo_dirty : machine :=
  {| module_file_name := module_file_name demo; files := files demo;
     mkdir_fault := mkdir_fault demo; spawn := spawn demo;
     children := []; last_error := 183;
     frame := fun _ => L "C:\Elsewhere\App\Firefox64\firefox.exe";
     pi := {| hProcess := 44; hThread := 48 |};
     trace := [EvCloseHandle 12] |}.

(** An installation with the 32-bit Firefox only. *)
Definition demo_32 : machine :=
  boot (Some demo_exe) {[ candidate32 demo_root := RegularFile ]}
    (fun _ => None) spawn_ok (fun _ => []).

(** The launcher sits in the root of drive [C:]. *)
Definition demo_drive_root : machine :=
  boot (Some (L "C:\MyFox.exe")) ∅ (fun _ => None) spawn_ok (fun _ => []).

(** * Properties *)

(** ** Sample evaluations of the string routines *)

Example remove_file_spec_drive :
  remove_file_spec (L "C:\MyFox\MyFox.exe") = L "C:\MyFox".
Proof. reflexivity. Qed.

Example remove_file_spec_root :
  remove_file_spec (L "C:\MyFox.exe") = L "C:\".
Proof. reflexivity. Qed.

Example remove_file_spec_unc :
  remove_file_spec (L "\\srv\share\MyFox.exe") = L "\\srv\share".
Proof. reflexivity. Qed.

Example vformat_s :
  vformat (L "%s\Data") [ValS (L "C:\MyFox")] = L "C:\MyFox\Data".
Proof. reflexivity. Qed.

Example vformat_lu :
  vformat (L "code: %lu") [ValLU 5] = L "code: 5".
Proof. reflexivity. Qed.

(** ** Strings *)

Lemma wcslen_app (s t : wstring) : wcslen (s ++ t) = wcslen s + wcslen t.
Proof. unfold wcslen. rewrite length_app. lia. Qed.

Lemma wcslen_nonneg (s : wstring) : 0 <= wcslen s.
Proof. unfold wcslen. lia. Qed.

Lemma strsafe_fit_ok (cch : Z) (s : wstring) :
  wcslen s < cch -> strsafe_fit cch s = (S_OK, s).
Proof.
  intros H. unfold strsafe_fit.
  destruct (Z.ltb_spec (wcslen s) cch); [reflexivity | lia].
Qed.

Lemma vformat_firefox64 (b : wstring) :
  vformat fmt_firefox64 [ValS b] = candidate64 b.
Proof. reflexivity. Qed.

Lemma vformat_firefox (b : wstring) :
  vformat fmt_firefox [ValS b] = candidate32 b.
Proof. reflexivity. Qed.

Lemma vformat_data (b : wstring) : vformat fmt_data [ValS b] = DataDirectory b.
Proof. reflexivity. Qed.

Lemma vformat_profile (b : wstring) :
  vformat fmt_profile [ValS b] = ProfileDirectory b.
Proof. reflexivity. Qed.

Lemma vformat_cmdline (t b : wstring) :
  vformat fmt_cmdline [ValS t; ValS (ProfileDirectory b)] = command_line t b.
Proof. reflexivity. Qed.

Lemma file_spec_scan_plain (f : wstring) (i spec : nat) :
  plain f -> file_spec_scan f i spec = spec.
Proof.
  intros Hf. revert i.
  induction Hf as [|c f [Hb Hc] _ IH]; intros i; cbn [file_spec_scan].
  - reflexivity.
  - apply Pos.eqb_neq in Hb, Hc. rewrite Hb, Hc. apply IH.
Qed.

(** The scan stops at a backslash that a plain string follows, unless a
    colon stands right before it. *)
Lemma file_spec_scan_last (f : wstring) (n : nat) :
  plain f ->
  forall (q : wstring) (x : WCHAR) (i spec : nat),
    (length q <= n)%nat -> x <> COLON ->
    file_spec_scan ((q ++ [x]) ++ BACKSLASH :: f) i spec
    = (i + length (q ++ [x]))%nat.
Proof.
  intros Hf. induction n as [n IH] using lt_wf_ind.
  intros q x i spec Hn Hx.
  assert (Hbb : Pos.eqb BACKSLASH BACKSLASH = true) by reflexivity.
  destruct q as [|c q]; cbn [app length file_spec_scan] in *.
  - destruct (Pos.eqb_spec x BACKSLASH) as [->|Hxb].
    + cbn [file_spec_scan]. rewrite Hbb.
      rewrite file_spec_scan_plain by assumption. lia.
    + apply Pos.eqb_neq in Hx. rewrite Hx. rewrite Hbb.
      rewrite file_spec_scan_plain by assumption. lia.
  - destruct (Pos.eqb_spec c BACKSLASH) as [->|Hcb].
    + rewrite (IH (length q)) by (lia || assumption).
      cbn [length]. lia.
    + destruct (Pos.eqb_spec c COLON) as [->|Hcc].
      * destruct q as [|d q]; cbn [app length file_spec_scan] in *.
        -- rewrite Hbb. rewrite file_spec_scan_plain by assumption.
           destruct (Pos.eqb_spec x BACKSLASH); lia.
        -- rewrite (IH (length q)) by (lia || assumption).
           cbn [length]. lia.
      * rewrite (IH (length q)) by (lia || assumption). cbn [length]. lia.
Qed.

(** Removing the file specification of [p\f] leaves [p], for a plain [f] and
    a [p] of more than two code units that does not end in a colon. *)
Lemma remove_file_spec_last (p f : wstring) (x : WCHAR) :
  (2 < length p)%nat -> last p = Some x -> x <> COLON -> plain f ->
  remove_file_spec (p ++ BACKSLASH :: f) = p.
Proof.
  intros Hlen Hlast Hx Hf.
  apply last_Some in Hlast as [q ->].
  rewrite length_app in Hlen. cbn [length] in Hlen.
  destruct q as [|c1 [|c2 q]]; cbn [length] in Hlen; try lia.
  unfold remove_file_spec. apply take_app_length'.
  unfold file_spec_index, skip_leading_backslash.
  cbn [app fst snd].
  destruct (Pos.eqb_spec c1 BACKSLASH) as [->|H1]; cbn [fst snd].
  - destruct (Pos.eqb_spec c2 BACKSLASH) as [->|H2].
    + rewrite (file_spec_scan_last f (length q)) by (lia || assumption).
      cbn [app length]. lia.
    + pose proof (file_spec_scan_last f _ Hf (c2 :: q) x 1%nat 1%nat
                    (Nat.le_refl _) Hx) as E.
      cbn [app length] in E |- *. rewrite E. lia.
  - apply Pos.eqb_neq in H1. rewrite H1.
    pose proof (file_spec_scan_last f _ Hf (c1 :: c2 :: q) x 0%nat 0%nat
                  (Nat.le_refl _) Hx) as E.
    cbn [app length] in E |- *. rewrite E. lia.
Qed.

Lemma remove_file_spec_length (p : wstring) :
  wcslen (remove_file_spec p) <= wcslen p.
Proof. unfold remove_file_spec, wcslen. rewrite length_take. lia. Qed.

Lemma plain_firefox_exe : plain (L "firefox.exe").
Proof. unfold plain. repeat constructor; discriminate. Qed.

Lemma remove_file_spec_candidate64 (b : wstring) :
  remove_file_spec (candidate64 b) = b ++ L "\App\Firefox64".
Proof.
  change (candidate64 b)
    with (b ++ L "\App\Firefox64" ++ BACKSLASH :: L "firefox.exe").
  rewrite app_assoc.
  apply (remove_file_spec_last _ _ 52%positive).
  - rewrite length_app. cbn. lia.
  - apply last_app_Some. left. reflexivity.
  - discriminate.
  - apply plain_firefox_exe.
Qed.

Lemma remove_file_spec_candidate32 (b : wstring) :
  remove_file_spec (candidate32 b) = b ++ L "\App\Firefox".
Proof.
  change (candidate32 b)
    with (b ++ L "\App\Firefox" ++ BACKSLASH :: L "firefox.exe").
  rewrite app_assoc.
  apply (remove_file_spec_last _ _ 120%positive).
  - rewrite length_app. cbn. lia.
  - apply last_app_Some. left. reflexivity.
  - discriminate.
  - apply plain_firefox_exe.
Qed.

(** ** Running statements *)

Lemma bind_Next {A B : Type} (c : M A) (f : A -> M B) (m m' : machine) (a : A) :
  c m = (Next a, m') -> (c ≫= f) m = f a m'.
Proof. intros E. unfold mbind, M_bind. rewrite E. reflexivity. Qed.

Lemma bind_Exit {A B : Type} (c : M A) (f : A -> M B) (m m' : machine)
    (code : Z) :
  c m = (Exit code, m') -> (c ≫= f) m = (Exit code, m').
Proof. intros E. unfold mbind, M_bind. rewrite E. reflexivity. Qed.

Lemma when_false (body : M unit) (m : machine) :
  when false body m = (Next tt, m).
Proof. reflexivity. Qed.

Lemma guard_pass (p : wstring) :
  0 < wcslen p < MAX_PATH ->
  (wcslen p =? 0) || (MAX_PATH <=? wcslen p) = false.
Proof. intros H. apply orb_false_intro; lia. Qed.

Lemma GetModuleFileNameW_fits (b : local) (n : Z) (m : machine) (p : wstring) :
  module_file_name m = Some p -> wcslen p < n ->
  GetModuleFileNameW b n m = (Next (wcslen p), store b p m).
Proof.
  intros Hm Hp. unfold GetModuleFileNameW. rewrite Hm.
  destruct (Z.ltb_spec (wcslen p) n); [reflexivity | lia].
Qed.

Lemma StringCchPrintfW_fits (b : local) (cch : Z) (fmt : wstring)
    (args : list format_arg) (m : machine) :
  wcslen (vformat fmt (map (eval_arg m) args)) < cch ->
  StringCchPrintfW b cch fmt args m
  = (Next S_OK, store b (vformat fmt (map (eval_arg m) args)) m).
Proof.
  intros H. unfold StringCchPrintfW. rewrite strsafe_fit_ok by assumption.
  reflexivity.
Qed.

Lemma StringCchCopyW_fits (b : local) (cch : Z) (src : LPCWSTR) (m : machine) :
  wcslen (deref m src) < cch ->
  StringCchCopyW b cch src m = (Next S_OK, store b (deref m src) m).
Proof.
  intros H. unfold StringCchCopyW. rewrite strsafe_fit_ok by assumption.
  reflexivity.
Qed.

Lemma GetFileAttributesW_found (x : LPCWSTR) (m : machine) (e : entry) :
  files m !! deref m x = Some e ->
  GetFileAttributesW x m
  = (Next (attributes_of e), log (EvGetFileAttributes (deref m x)) m).
Proof. intros H. unfold GetFileAttributesW. rewrite H. reflexivity. Qed.

Lemma GetFileAttributesW_missing (x : LPCWSTR) (m : machine) :
  files m !! deref m x = None ->
  GetFileAttributesW x m
  = (Next INVALID_FILE_ATTRIBUTES,
     set_last_error ERROR_FILE_NOT_FOUND
       (log (EvGetFileAttributes (deref m x)) m)).
Proof. intros H. unfold GetFileAttributesW. rewrite H. reflexivity. Qed.

Lemma attributes_valid (e : entry) :
  (attributes_of e =? INVALID_FILE_ATTRIBUTES) = false.
Proof. destruct e; reflexivity. Qed.

Lemma made_eq (x : LPCWSTR) (m : machine) :
  made x m = snd (CreateDirectoryW x m).
Proof. unfold made. rewrite (seal_eq made_aux). reflexivity. Qed.

Lemma CreateDirectoryW_Next (x : LPCWSTR) (m : machine) :
  exists ok : bool, CreateDirectoryW x m = (Next ok, made x m).
Proof.
  rewrite made_eq. unfold CreateDirectoryW.
  destruct (files m !! deref m x); [eexists; reflexivity |].
  destruct (mkdir_fault m (deref m x)); eexists; reflexivity.
Qed.

Lemma made_frame (x : LPCWSTR) (m : machine) : frame (made x m) = frame m.
Proof.
  rewrite made_eq. unfold CreateDirectoryW.
  destruct (files m !! deref m x); [reflexivity |].
  destruct (mkdir_fault m (deref m x)); reflexivity.
Qed.

Lemma made_trace (x : LPCWSTR) (m : machine) :
  trace (made x m) = trace m ++ [EvCreateDirectory (deref m x)].
Proof.
  rewrite made_eq. unfold CreateDirectoryW.
  destruct (files m !! deref m x); [reflexivity |].
  destruct (mkdir_fault m (deref m x)); reflexivity.
Qed.

Lemma made_files (x : LPCWSTR) (m : machine) :
  files (made x m) = mkdir_files (mkdir_fault m) (deref m x) (files m).
Proof.
  rewrite made_eq. unfold CreateDirectoryW, mkdir_files.
  destruct (files m !! deref m x); [reflexivity |].
  destruct (mkdir_fault m (deref m x)); reflexivity.
Qed.

Lemma made_children (x : LPCWSTR) (m : machine) :
  children (made x m) = children m.
Proof.
  rewrite made_eq. unfold CreateDirectoryW.
  destruct (files m !! deref m x); [reflexivity |].
  destruct (mkdir_fault m (deref m x)); reflexivity.
Qed.

Lemma made_spawn (x : LPCWSTR) (m : machine) : spawn (made x m) = spawn m.
Proof.
  rewrite made_eq. unfold CreateDirectoryW.
  destruct (files m !! deref m x); [reflexivity |].
  destruct (mkdir_fault m (deref m x)); reflexivity.
Qed.

Lemma made_mkdir_fault (x : LPCWSTR) (m : machine) :
  mkdir_fault (made x m) = mkdir_fault m.
Proof.
  rewrite made_eq. unfold CreateDirectoryW.
  destruct (files m !! deref m x); [reflexivity |].
  destruct (mkdir_fault m (deref m x)); reflexivity.
Qed.

Lemma made_module (x : LPCWSTR) (m : machine) :
  module_file_name (made x m) = module_file_name m.
Proof.
  rewrite made_eq. unfold CreateDirectoryW.
  destruct (files m !! deref m x); [reflexivity |].
  destruct (mkdir_fault m (deref m x)); reflexivity.
Qed.

Lemma made_deref (x y : LPCWSTR) (m : machine) :
  deref (made x m) y = deref m y.
Proof. destruct y; simpl; [rewrite made_frame|]; reflexivity. Qed.

(** ** The paths through [wWinMain] *)

Lemma wcslen_command_line (t b : wstring) :
  wcslen (command_line t b) = wcslen t + wcslen b + 38.
Proof.
  unfold command_line, ProfileDirectory. rewrite !wcslen_app.
  change (wcslen [DQUOTE]) with 1.
  change (wcslen (L " -profile ")) with 10.
  change (wcslen (L "\Data\profile")) with 13.
  change (wcslen (L " -no-remote")) with 11. lia.
Qed.

Lemma wcslen_candidate64 (b : wstring) : wcslen (candidate64 b) = wcslen b + 26.
Proof. unfold candidate64. rewrite wcslen_app. reflexivity. Qed.

Lemma wcslen_candidate32 (b : wstring) : wcslen (candidate32 b) = wcslen b + 24.
Proof. unfold candidate32. rewrite wcslen_app. reflexivity. Qed.

Lemma wcslen_DataDirectory (b : wstring) :
  wcslen (DataDirectory b) = wcslen b + 5.
Proof. unfold DataDirectory. rewrite wcslen_app. reflexivity. Qed.

Lemma wcslen_ProfileDirectory (b : wstring) :
  wcslen (ProfileDirectory b) = wcslen b + 13.
Proof. unfold ProfileDirectory. rewrite wcslen_app. reflexivity. Qed.

(** Projections of a machine built by the calls above. *)
Ltac msimpl :=
  cbn [trace files children frame spawn mkdir_fault module_file_name
       last_error pi log store set_last_error set_pi set_children set_files
       deref local_eqb local_index Nat.eqb map eval_arg fst snd].

Lemma made_prepared (m0 : machine) (b : wstring) :
  frame m0 data_dir = DataDirectory b ->
  frame m0 profile = ProfileDirectory b ->
  files (made profile (made data_dir m0))
  = mkdir_files (mkdir_fault m0) (ProfileDirectory b)
      (mkdir_files (mkdir_fault m0) (DataDirectory b) (files m0)).
Proof.
  intros Hd Hp.
  rewrite !made_files, made_mkdir_fault, made_deref. cbn [deref].
  rewrite Hd, Hp. reflexivity.
Qed.

Lemma CreateProcessW_failed (a c : LPCWSTR) (fl : Z) (d : LPCWSTR)
    (m : machine) (e : Z) :
  spawn m (files m) (deref m a) (deref m c) (deref m d) = inl e ->
  CreateProcessW a c fl d m
  = (Next false,
     set_last_error e
       (log (EvCreateProcess (deref m a) (deref m c) fl (deref m d)) m)).
Proof. intros H. unfold CreateProcessW. rewrite H. reflexivity. Qed.

Lemma CreateProcessW_started (a c : LPCWSTR) (fl : Z) (d : LPCWSTR)
    (m : machine) (i : PROCESS_INFORMATION) :
  spawn m (files m) (deref m a) (deref m c) (deref m d) = inr i ->
  CreateProcessW a c fl d m
  = (Next true,
     set_pi i
       (set_children
          (children m ++
           [{| child_application := deref m a;
               child_command_line := deref m c;
               child_creation_flags := fl;
               child_directory := deref m d; child_info := i |}])
          (log (EvCreateProcess (deref m a) (deref m c) fl (deref m d)) m))).
Proof. intros H. unfold CreateProcessW. rewrite H. reflexivity. Qed.

Lemma report_failure (k : unit -> M Z) (m1 : machine) :
  (when (negb false)
     (e ← GetLastError;
      StringCchPrintfW err_msg (ARRAYSIZE err_msg) fmt_err_msg [ArgLU e];;
      MessageBoxW err_msg (Lit msg_caption) MB_ICONERROR;;
      Return 1) ≫= k) m1
  = (Exit 1,
     log (EvMessageBox
            (snd (strsafe_fit (ARRAYSIZE err_msg)
                    (vformat fmt_err_msg [ValLU (last_error m1)])))
            msg_caption MB_ICONERROR)
       (store err_msg
          (snd (strsafe_fit (ARRAYSIZE err_msg)
                  (vformat fmt_err_msg [ValLU (last_error m1)]))) m1)).
Proof.
  apply bind_Exit. cbn [negb when].
  erewrite bind_Next by (unfold GetLastError; reflexivity).
  erewrite bind_Next by (unfold StringCchPrintfW; reflexivity).
  erewrite bind_Next by (unfold MessageBoxW; reflexivity).
  reflexivity.
Qed.

Lemma release_handles (body : M unit) (m2 : machine) :
  (when (negb true) body ≫= fun _ =>
   p ← load_pi;
   CloseHandle (hProcess p);;
   p' ← load_pi;
   CloseHandle (hThread p');;
   (Return 0 : M Z)) m2
  = (Exit 0,
     log (EvCloseHandle (hThread (pi m2)))
       (log (EvCloseHandle (hProcess (pi m2))) m2)).
Proof. reflexivity. Qed.

(** The statements from the directory creation to [init_pi], on a machine
    whose [base] and [ff_exe] hold the root and the target. *)
Ltac exec_prepare :=
  erewrite bind_Next;
    [| apply StringCchPrintfW_fits; msimpl;
       rewrite vformat_data, wcslen_DataDirectory;
       change (ARRAYSIZE data_dir) with 324; lia ];
  msimpl; rewrite vformat_data;
  erewrite bind_Next;
    [| apply StringCchPrintfW_fits; msimpl;
       rewrite vformat_profile, wcslen_ProfileDirectory;
       change (ARRAYSIZE profile) with 324; lia ];
  msimpl; rewrite vformat_profile;
  match goal with
  | |- context [(CreateDirectoryW ?x ≫= ?k) ?m0] =>
      let E := fresh "E" in
      destruct (CreateDirectoryW_Next x m0) as [? E];
      rewrite (bind_Next _ k _ _ _ E); clear E
  end;
  match goal with
  | |- context [(CreateDirectoryW ?x ≫= ?k) ?m0] =>
      let E := fresh "E" in
      destruct (CreateDirectoryW_Next x m0) as [? E];
      rewrite (bind_Next _ k _ _ _ E); clear E
  end;
  erewrite bind_Next;
    [| apply StringCchPrintfW_fits; msimpl; rewrite !made_frame; msimpl;
       rewrite vformat_cmdline, wcslen_command_line;
       change (ARRAYSIZE cmdline) with 780; lia ];
  msimpl; rewrite !made_frame; msimpl; rewrite vformat_cmdline;
  erewrite bind_Next;
    [| apply StringCchCopyW_fits; msimpl; rewrite !made_frame; msimpl;
       change (ARRAYSIZE ff_dir) with 324; lia ];
  msimpl; rewrite !made_frame; msimpl;
  erewrite bind_Next by reflexivity;
  erewrite bind_Next by reflexivity;
  msimpl.

(** The last statements, from [CreateProcessW] on. *)
Ltac exec_spawn m b t :=
  let R := fresh "R" in
  let Er := fresh "Er" in
  match goal with
  | |- context [(CreateProcessW ?a ?c ?fl ?d ≫= ?k) ?m1] =>
      assert (R : spawn m1 (files m1) (deref m1 a) (deref m1 c) (deref m1 d)
                  = spawn_result m b t)
        by (msimpl; rewrite ?made_spawn, ?made_frame; msimpl;
            rewrite (made_prepared _ b) by reflexivity; reflexivity);
      unfold launched;
      destruct (spawn_result m b t) as [err|info] eqn:Er;
      [ rewrite (bind_Next _ k _ _ _ (CreateProcessW_failed a c fl d m1 err R));
        rewrite report_failure
      | rewrite (bind_Next _ k _ _ _ (CreateProcessW_started a c fl d m1 info R));
        rewrite release_handles ]
  end;
  (eexists; split; [reflexivity |]);
  msimpl;
  unfold same_system; msimpl;
  rewrite ?made_trace, ?made_children, ?made_frame, ?made_module,
    ?made_mkdir_fault, ?made_spawn; msimpl;
  rewrite ?made_trace, ?made_children, ?made_frame, ?made_module,
    ?made_mkdir_fault, ?made_spawn; msimpl;
  rewrite ?(made_prepared _ b) by reflexivity;
  msimpl;
  cbn [launch_closing launch_children launch_events];
  rewrite <- ?app_assoc, ?app_nil_r;
  repeat split; reflexivity.

Lemma exec_query_fails (m : machine) :
  query_fails m ->
  exists m', wWinMain m = (Exit 1, m') /\
    trace m' = trace m ++ [EvMessageBox msg_no_path msg_caption MB_ICONERROR] /\
    files m' = files m /\ children m' = children m /\ same_system m m'.
Proof.
  unfold query_fails, wWinMain, same_system. intros H.
  unfold mbind at 1, M_bind at 1, GetModuleFileNameW at 1.
  destruct (module_file_name m) as [p|] eqn:Hm.
  - destruct (Z.ltb_spec (wcslen p) MAX_PATH).
    + assert (E : wcslen p = 0) by lia. rewrite E.
      eexists. split; [reflexivity |]. msimpl. repeat split; auto.
    + eexists. split; [reflexivity |]. msimpl. repeat split; auto.
  - eexists. split; [reflexivity |]. msimpl. repeat split; auto.
Qed.

Section Resolved.

Variables (m : machine) (p : wstring).
Hypothesis Hmod : module_file_name m = Some p.
Hypothesis Hlen : 0 < wcslen p < MAX_PATH.

Let b := InstallRoot p.

Lemma root_length : wcslen b < 260.
Proof.
  pose proof (remove_file_spec_length p). unfold b, InstallRoot.
  change MAX_PATH with 260 in Hlen. lia.
Qed.

(** Up to the first probe. *)
Ltac exec_resolve Hb :=
  unfold wWinMain;
  erewrite bind_Next by (apply GetModuleFileNameW_fits; [eassumption | lia]);
  rewrite guard_pass by assumption;
  erewrite bind_Next by apply when_false;
  erewrite bind_Next by reflexivity;
  msimpl; fold (InstallRoot p); fold b;
  erewrite bind_Next;
    [| apply StringCchPrintfW_fits; msimpl;
       rewrite vformat_firefox64, wcslen_candidate64;
       change (ARRAYSIZE ff_exe) with 324; lia ];
  msimpl; rewrite vformat_firefox64.

(** After a miss, up to the second probe. *)
Ltac exec_second Hb H1 :=
  erewrite bind_Next by (apply GetFileAttributesW_missing; exact H1);
  change (INVALID_FILE_ATTRIBUTES =? INVALID_FILE_ATTRIBUTES) with true;
  cbn [when]; msimpl;
  match goal with
  | |- context [((StringCchPrintfW ?d ?n ?f ?a ≫= ?k1) ≫= ?k2) ?m0] =>
      change (((StringCchPrintfW d n f a ≫= k1) ≫= k2) m0)
        with (match (StringCchPrintfW d n f a ≫= k1) m0 with
              | (Next x, m') => k2 x m'
              | (Exit code, m') => (Exit code, m')
              end)
  end;
  erewrite bind_Next;
    [| apply StringCchPrintfW_fits; msimpl;
       rewrite vformat_firefox, wcslen_candidate32;
       change (ARRAYSIZE ff_exe) with 324; lia ];
  msimpl; rewrite vformat_firefox.

Lemma exec_found64 (e : entry) :
  files m !! candidate64 b = Some e ->
  exists m',
    wWinMain m
    = (Exit (launch_code (spawn_result m b (candidate64 b))), m') /\
    launched m b (candidate64 b) [EvGetFileAttributes (candidate64 b)] m'.
Proof.
  intros H1. pose proof root_length as Hb.
  pose proof (wcslen_candidate64 b) as Ht.
  exec_resolve Hb.
  erewrite bind_Next by (apply GetFileAttributesW_found; exact H1).
  rewrite attributes_valid.
  erewrite bind_Next by apply when_false.
  msimpl. exec_prepare. exec_spawn m b (candidate64 b).
Qed.

Lemma exec_found32 (e : entry) :
  files m !! candidate64 b = None ->
  files m !! candidate32 b = Some e ->
  exists m',
    wWinMain m
    = (Exit (launch_code (spawn_result m b (candidate32 b))), m') /\
    launched m b (candidate32 b)
      [EvGetFileAttributes (candidate64 b);
       EvGetFileAttributes (candidate32 b)] m'.
Proof.
  intros H1 H2. pose proof root_length as Hb.
  pose proof (wcslen_candidate32 b) as Ht.
  exec_resolve Hb. exec_second Hb H1.
  erewrite bind_Next by (apply GetFileAttributesW_found; exact H2).
  rewrite attributes_valid. rewrite when_false.
  msimpl. exec_prepare. exec_spawn m b (candidate32 b).
Qed.

Lemma exec_not_found :
  files m !! candidate64 b = None ->
  files m !! candidate32 b = None ->
  exists m',
    wWinMain m = (Exit 1, m') /\
    trace m'
    = trace m ++
      [EvGetFileAttributes (candidate64 b);
       EvGetFileAttributes (candidate32 b);
       EvMessageBox msg_not_found msg_caption MB_ICONERROR] /\
    files m' = files m /\ children m' = children m /\
    frame m' base = b /\ frame m' ff_exe = candidate32 b /\
    same_system m m'.
Proof.
  intros H1 H2. pose proof root_length as Hb.
  exec_resolve Hb. exec_second Hb H1.
  erewrite bind_Next by (apply GetFileAttributesW_missing; exact H2).
  change (INVALID_FILE_ATTRIBUTES =? INVALID_FILE_ATTRIBUTES) with true.
  cbn [when].
  eexists. split; [reflexivity |].
  unfold same_system. msimpl. rewrite <- ?app_assoc.
  repeat split; reflexivity.
Qed.

End Resolved.

(** ** The launcher as a function of the machine *)

Lemma calls_eq (m : machine) (l : list event) :
  trace (after m) = trace m ++ l -> calls m = l.
Proof. intros H. unfold calls. rewrite H. apply drop_app_length. Qed.

Lemma run_Exit (m m' : machine) (code : Z) :
  wWinMain m = (Exit code, m') -> exit_code m = code /\ after m = m'.
Proof. intros H. unfold exit_code, after, run. rewrite H. auto. Qed.

Lemma resolve_Some (m : machine) (b : wstring) :
  resolve m = Some b ->
  exists p, module_file_name m = Some p /\ 0 < wcslen p < MAX_PATH /\
            b = InstallRoot p.
Proof.
  unfold resolve. destruct (module_file_name m) as [p|]; [|discriminate].
  destruct ((wcslen p =? 0) || (MAX_PATH <=? wcslen p)) eqn:G; [discriminate |].
  intros [= <-]. apply orb_false_elim in G as [G1 G2].
  pose proof (wcslen_nonneg p). exists p. repeat split; lia || reflexivity.
Qed.

Lemma resolve_None (m : machine) : resolve m = None <-> query_fails m.
Proof.
  unfold resolve, query_fails. destruct (module_file_name m) as [p|].
  - destruct (Z.eqb_spec (wcslen p) 0) as [E0 | E0],
      (Z.leb_spec MAX_PATH (wcslen p)) as [E1 | E1];
      cbn [orb]; split; intros E; try tauto; try lia; try discriminate.
  - tauto.
Qed.

Lemma run_query_fails (m : machine) :
  resolve m = None ->
  exit_code m = 1 /\
  calls m = [EvMessageBox msg_no_path msg_caption MB_ICONERROR] /\
  files (after m) = files m /\ children (after m) = children m /\
  same_system m (after m).
Proof.
  intros H. apply resolve_None, exec_query_fails in H
    as (m' & E & Ht & Hf & Hc & Hs).
  apply run_Exit in E as [-> <-]. split; [reflexivity |].
  split; [apply calls_eq, Ht | auto].
Qed.

Lemma run_not_found (m : machine) (b : wstring) :
  resolve m = Some b -> select (files m) b = None ->
  exit_code m = 1 /\
  calls m
  = [EvGetFileAttributes (candidate64 b);
     EvGetFileAttributes (candidate32 b);
     EvMessageBox msg_not_found msg_caption MB_ICONERROR] /\
  files (after m) = files m /\ children (after m) = children m /\
  frame (after m) base = b /\ frame (after m) ff_exe = candidate32 b /\
  same_system m (after m).
Proof.
  intros Hr Hs. apply resolve_Some in Hr as (p & Hm & Hl & ->).
  unfold select in Hs.
  destruct (files m !! candidate64 (InstallRoot p)) eqn:H1; [discriminate |].
  destruct (files m !! candidate32 (InstallRoot p)) eqn:H2; [discriminate |].
  destruct (exec_not_found m p Hm Hl H1 H2) as (m' & E & Ht & Hrest).
  apply run_Exit in E as [-> <-]. split; [reflexivity |].
  split; [apply calls_eq, Ht | exact Hrest].
Qed.

Lemma run_found (m : machine) (b t : wstring) :
  resolve m = Some b -> select (files m) b = Some t ->
  exit_code m = launch_code (spawn_result m b t) /\
  launched m b t (probes (files m) b) (after m).
Proof.
  intros Hr Hs. apply resolve_Some in Hr as (p & Hm & Hl & ->).
  unfold select in Hs. unfold probes.
  destruct (files m !! candidate64 (InstallRoot p)) as [e|] eqn:H1.
  - injection Hs as <-.
    destruct (exec_found64 m p Hm Hl e H1) as (m' & E & HL).
    apply run_Exit in E as [-> <-]. auto.
  - destruct (files m !! candidate32 (InstallRoot p)) as [e|] eqn:H2;
      [| discriminate].
    injection Hs as <-.
    destruct (exec_found32 m p Hm Hl e H1 H2) as (m' & E & HL).
    apply run_Exit in E as [-> <-]. auto.
Qed.

Lemma launched_calls (m : machine) (b t : wstring) (pr : list event)
    (m' : machine) :
  after m = m' -> launched m b t pr m' ->
  calls m = pr ++ launch_events b t ++ launch_closing (spawn_result m b t).
Proof. intros <- (Ht & _). apply calls_eq, Ht. Qed.

(** ** Sample runs *)

Example demo_resolve : resolve demo = Some demo_root.
Proof. reflexivity. Qed.

Example demo_exit : exit_code demo = 0.
Proof. reflexivity. Qed.

Example demo_calls :
  calls demo
  = [EvGetFileAttributes (L "C:\MyFox\App\Firefox64\firefox.exe");
     EvCreateDirectory (L "C:\MyFox\Data");
     EvCreateDirectory (L "C:\MyFox\Data\profile");
     EvCreateProcess (L "C:\MyFox\App\Firefox64\firefox.exe")
       ([DQUOTE] ++ L "C:\MyFox\App\Firefox64\firefox.exe" ++ [DQUOTE] ++
        L " -profile " ++ [DQUOTE] ++ L "C:\MyFox\Data\profile" ++
        [DQUOTE] ++ L " -no-remote")
       DETACHED_PROCESS (L "C:\MyFox\App\Firefox64");
     EvCloseHandle 4; EvCloseHandle 8].
Proof. reflexivity. Qed.

Example demo_files :
  files (after demo)
  = <[L "C:\MyFox\Data\profile" := Directory]>
      (<[L "C:\MyFox\Data" := Directory]> demo_fs).
Proof. reflexivity. Qed.

Example demo_bare_calls :
  calls demo_bare
  = [EvGetFileAttributes (L "C:\MyFox\App\Firefox64\firefox.exe");
     EvGetFileAttributes (L "C:\MyFox\App\Firefox\firefox.exe");
     EvMessageBox msg_not_found msg_caption MB_ICONERROR].
Proof. reflexivity. Qed.

Example demo_locked_exit : exit_code demo_locked = 0.
Proof. reflexivity. Qed.

Example demo_bare_exit : exit_code demo_bare = 1.
Proof. reflexivity. Qed.

(** ** Candidate priority *)

Lemma candidates_differ (b : wstring) : candidate32 b <> candidate64 b.
Proof. unfold candidate32, candidate64. intros H%app_inv_head. discriminate. Qed.

Lemma select_first (fs : gmap wstring entry) (b : wstring) (e : entry) :
  fs !! candidate64 b = Some e ->
  select fs b = Some (candidate64 b) /\
  probes fs b = [EvGetFileAttributes (candidate64 b)].
Proof. intros H. unfold select, probes. rewrite H. auto. Qed.

Lemma second_not_probed (m : machine) (b : wstring) (e : entry) :
  resolve m = Some b -> files m !! candidate64 b = Some e ->
  calls m
  = EvGetFileAttributes (candidate64 b) ::
    (launch_events b (candidate64 b) ++
     launch_closing (spawn_result m b (candidate64 b))) /\
  (EvGetFileAttributes (candidate32 b) ∉ calls m) /\
  frame (after m) ff_exe = candidate64 b.
Proof.
  intros Hr H1. destruct (select_first _ _ _ H1) as [Hs Hp].
  destruct (run_found m b _ Hr Hs) as [_ HL].
  pose proof (launched_calls _ _ _ _ _ eq_refl HL) as Hc.
  rewrite Hp in Hc. cbn [app] in Hc.
  split; [exact Hc |]. split; [| apply HL].
  rewrite Hc. intros Hin.
  apply elem_of_cons in Hin as [Hin | Hin].
  { injection Hin as Hin. exact (candidates_differ b Hin). }
  apply elem_of_app in Hin as [Hin | Hin].
  - unfold launch_events in Hin.
    repeat (apply elem_of_cons in Hin as [Hin | Hin]; [discriminate |]).
    apply elem_of_nil in Hin. exact Hin.
  - destruct (spawn_result m b (candidate64 b)); cbn [launch_closing] in Hin;
      repeat (apply elem_of_cons in Hin as [Hin | Hin]; [discriminate |]);
      apply elem_of_nil in Hin; exact Hin.
Qed.

(** C1.  Whenever [App\Firefox64\firefox.exe] exists under the install
    root, the launcher selects it as the target, whether or not
    [App\Firefox\firefox.exe] exists too: it is the one existence check made,
    it is what [ff_exe] holds and what [CreateProcessW] is given, and the
    second candidate is not checked. *)
Theorem C1_first_candidate_wins (m : machine) (b : wstring) (e : entry) :
  resolve m = Some b ->
  files m !! (b ++ L "\App\Firefox64\firefox.exe") = Some e ->
  let target := b ++ L "\App\Firefox64\firefox.exe" in
  frame (after m) ff_exe = target /\
  (exists rest,
     calls m
     = [EvGetFileAttributes target;
        EvCreateDirectory (DataDirectory b);
        EvCreateDirectory (ProfileDirectory b);
        EvCreateProcess target (command_line target b) DETACHED_PROCESS
          (remove_file_spec target)] ++ rest) /\
  EvGetFileAttributes (b ++ L "\App\Firefox\firefox.exe") ∉ calls m.
Proof.
  intros Hr H1 target.
  destruct (second_not_probed m b e Hr H1) as (Hc & Hn & Hf).
  split; [exact Hf |]. split; [| exact Hn].
  eexists. rewrite Hc. reflexivity.
Qed.

Lemma C1_witness :
  resolve demo_both = Some demo_root /\
  files demo_both !! (demo_root ++ L "\App\Firefox64\firefox.exe")
  = Some RegularFile /\
  files demo_both !! (demo_root ++ L "\App\Firefox\firefox.exe")
  = Some RegularFile /\
  frame (after demo_both) ff_exe = L "C:\MyFox\App\Firefox64\firefox.exe" /\
  EvGetFileAttributes (L "C:\MyFox\App\Firefox\firefox.exe")
    ∉ calls demo_both.
Proof.
  split; [reflexivity |]. split; [reflexivity |]. split; [reflexivity |].
  destruct (C1_first_candidate_wins demo_both demo_root RegularFile
              eq_refl eq_refl) as (H1 & _ & H3).
  split; [exact H1 | exact H3].
Defined.

(** ** The failure paths before the launch *)

Lemma not_in_three (x a b c : event) :
  x <> a -> x <> b -> x <> c -> x ∉ [a; b; c].
Proof.
  intros Ha Hb Hc Hin.
  repeat (apply elem_of_cons in Hin as [Hin | Hin]; [congruence |]).
  apply elem_of_nil in Hin. exact Hin.
Qed.

(** C2.  When neither candidate exists under the install root, the launcher
    exits with status 1, calls neither [CreateDirectoryW] nor
    [CreateProcessW], and leaves the file system and the set of started
    processes as they were.  (A machine on which the root itself can not be
    determined is covered: the premise asks for the candidates only under a
    root that resolves.) *)
Theorem C2_no_candidate (m : machine) :
  (forall b, resolve m = Some b ->
     files m !! (b ++ L "\App\Firefox64\firefox.exe") = None /\
     files m !! (b ++ L "\App\Firefox\firefox.exe") = None) ->
  exit_code m = 1 /\
  (forall x, EvCreateDirectory x ∉ calls m) /\
  (forall a c fl d, EvCreateProcess a c fl d ∉ calls m) /\
  files (after m) = files m /\
  children (after m) = children m.
Proof.
  intros H. destruct (resolve m) as [b|] eqn:Hr.
  - destruct (H b eq_refl) as [H1 H2].
    assert (Hs : select (files m) b = None).
    { unfold select, candidate64, candidate32. rewrite H1, H2. reflexivity. }
    destruct (run_not_found m b Hr Hs) as (He & Hc & Hf & Hch & _).
    rewrite Hc. repeat split; auto; intros; apply not_in_three; discriminate.
  - destruct (run_query_fails m Hr) as (He & Hc & Hf & Hch & _).
    rewrite Hc. repeat split; auto; intros; intros Hin;
      apply list_elem_of_singleton in Hin; discriminate.
Qed.

Lemma C2_witness :
  exit_code demo_bare = 1 /\
  (forall x, EvCreateDirectory x ∉ calls demo_bare) /\
  (forall a c fl d, EvCreateProcess a c fl d ∉ calls demo_bare) /\
  files (after demo_bare) = files demo_bare /\
  children (after demo_bare) = children demo_bare.
Proof.
  apply (C2_no_candidate demo_bare).
  intros b Hb. change (Some demo_root = Some b) in Hb.
  injection Hb as <-. split; reflexivity.
Defined.

(** When neither candidate exists the calls are the two existence checks
    and the dialog that lists both expected paths. *)
Lemma not_found_calls (m : machine) (b : wstring) :
  resolve m = Some b -> select (files m) b = None ->
  calls m
  = [EvGetFileAttributes (candidate64 b);
     EvGetFileAttributes (candidate32 b);
     EvMessageBox msg_not_found msg_caption MB_ICONERROR].
Proof. intros Hr Hs. apply (run_not_found m b Hr Hs). Qed.

(** C5.  When the query for the executable's path fails (the call fails, or
    the path does not fit the buffer), the launcher shows the error dialog,
    exits with a non-zero status, and does nothing else: the dialog is its
    only call, and the file system and the started processes are as they
    were. *)
Theorem C5_path_query_fails (m : machine) :
  (module_file_name m = None \/
   exists p, module_file_name m = Some p /\ MAX_PATH <= wcslen p) ->
  exit_code m <> 0 /\
  calls m = [EvMessageBox (L "Failed to get executable path.")
               (L "MyFox - Error") MB_ICONERROR] /\
  files (after m) = files m /\
  children (after m) = children m.
Proof.
  intros H.
  assert (Hq : query_fails m).
  { unfold query_fails. destruct H as [-> | (p & -> & Hp)]; auto. }
  apply resolve_None in Hq.
  destruct (run_query_fails m Hq) as (He & Hc & Hf & Hch & _).
  rewrite He. split; [discriminate |]. auto.
Qed.

Lemma C5_witness :
  module_file_name demo_lost = None /\
  exit_code demo_lost <> 0 /\
  calls demo_lost = [EvMessageBox (L "Failed to get executable path.")
                       (L "MyFox - Error") MB_ICONERROR].
Proof.
  split; [reflexivity |].
  destruct (C5_path_query_fails demo_lost (or_introl eq_refl))
    as (H1 & H2 & _).
  split; [exact H1 | exact H2].
Defined.

Example path_too_long_exit :
  exit_code (boot (Some (L "C:\" ++ replicate 257 LOWER_S)) demo_fs
               (fun _ => None) spawn_ok (fun _ => [])) = 1.
Proof. vm_compute. reflexivity. Qed.

Example longest_path_exit :
  exit_code (boot (Some (L "C:\" ++ replicate 256 LOWER_S)) ∅
               (fun _ => Some 5)
               (fun _ _ _ _ => inr demo_handles) (fun _ => [])) = 1.
Proof. vm_compute. reflexivity. Qed.

(** ** The launch: command line and working directory *)

Lemma probes_no_process (fs : gmap wstring entry) (b : wstring)
    (a c : wstring) (fl : Z) (d : wstring) :
  EvCreateProcess a c fl d ∉ probes fs b.
Proof.
  unfold probes. intros Hin. destruct (fs !! candidate64 b);
    repeat (apply elem_of_cons in Hin as [Hin | Hin]; [discriminate |]);
    apply elem_of_nil in Hin; exact Hin.
Qed.

Lemma closing_no_process (r : Z + PROCESS_INFORMATION)
    (a c : wstring) (fl : Z) (d : wstring) :
  EvCreateProcess a c fl d ∉ launch_closing r.
Proof.
  intros Hin. destruct r; cbn [launch_closing] in Hin;
    repeat (apply elem_of_cons in Hin as [Hin | Hin]; [discriminate |]);
    apply elem_of_nil in Hin; exact Hin.
Qed.

(** The one process the launcher asks for. *)
Lemma process_request (m : machine) (b t : wstring) :
  resolve m = Some b -> select (files m) b = Some t ->
  forall a c fl d,
    (EvCreateProcess a c fl d ∈ calls m) <->
    a = t /\ c = command_line t b /\ fl = DETACHED_PROCESS /\
    d = remove_file_spec t.
Proof.
  intros Hr Hs a c fl d.
  destruct (run_found m b t Hr Hs) as [_ HL].
  rewrite (launched_calls _ _ _ _ _ eq_refl HL).
  rewrite !elem_of_app. unfold launch_events. split.
  - intros [Hin | [Hin | Hin]].
    + destruct (probes_no_process _ _ _ _ _ _ Hin).
    + repeat (apply elem_of_cons in Hin as [Hin | Hin]; [try discriminate |]).
      * injection Hin as -> -> -> ->. auto.
      * apply elem_of_nil in Hin. destruct Hin.
    + destruct (closing_no_process _ _ _ _ _ Hin).
  - intros (-> & -> & -> & ->). right. left.
    do 2 apply list_elem_of_further. apply list_elem_of_here.
Qed.

Lemma select_cases (fs : gmap wstring entry) (b t : wstring) :
  select fs b = Some t -> t = candidate64 b \/ t = candidate32 b.
Proof.
  unfold select. destruct (fs !! candidate64 b); [intros [= <-]; auto |].
  destruct (fs !! candidate32 b); [intros [= <-]; auto | discriminate].
Qed.

(** C3.  For every install root and every target the search resolves, the
    command line given to [CreateProcessW] is exactly
    ["<target>" -profile "<root>\Data\profile" -no-remote]: it is what
    [cmdline] holds, the launcher asks for a process with it, and for no
    process with another command line. *)
Theorem C3_command_line (m : machine) (b t : wstring) :
  resolve m = Some b -> select (files m) b = Some t ->
  let expected :=
    [DQUOTE] ++ t ++ [DQUOTE] ++ L " -profile " ++
    [DQUOTE] ++ (b ++ L "\Data\profile") ++ [DQUOTE] ++ L " -no-remote" in
  frame (after m) cmdline = expected /\
  (exists d, EvCreateProcess t expected DETACHED_PROCESS d ∈ calls m) /\
  (forall a c fl d, EvCreateProcess a c fl d ∈ calls m -> c = expected).
Proof.
  intros Hr Hs expected.
  change expected with (command_line t b).
  destruct (run_found m b t Hr Hs) as [_ HL].
  split; [apply HL |]. split.
  - exists (remove_file_spec t). apply (process_request m b t Hr Hs). auto.
  - intros a c fl d Hin. apply (process_request m b t Hr Hs) in Hin.
    apply Hin.
Qed.

Lemma C3_witness :
  resolve demo = Some demo_root /\
  select (files demo) demo_root
  = Some (L "C:\MyFox\App\Firefox64\firefox.exe") /\
  frame (after demo) cmdline
  = [DQUOTE] ++ L "C:\MyFox\App\Firefox64\firefox.exe" ++ [DQUOTE] ++
    L " -profile " ++ [DQUOTE] ++ L "C:\MyFox\Data\profile" ++ [DQUOTE] ++
    L " -no-remote".
Proof.
  split; [reflexivity |]. split; [reflexivity |].
  apply (C3_command_line demo demo_root
           (L "C:\MyFox\App\Firefox64\firefox.exe") eq_refl eq_refl).
Defined.

(** The directory of either candidate. *)
Lemma target_directory (fs : gmap wstring entry) (b t : wstring) :
  select fs b = Some t ->
  exists sub,
    (sub = L "\App\Firefox64" \/ sub = L "\App\Firefox") /\
    t = (b ++ sub) ++ L "\firefox.exe" /\
    remove_file_spec t = b ++ sub.
Proof.
  intros [-> | ->]%select_cases.
  - exists (L "\App\Firefox64"). split; [auto |]. split.
    + unfold candidate64. rewrite <- app_assoc. reflexivity.
    + apply remove_file_spec_candidate64.
  - exists (L "\App\Firefox"). split; [auto |]. split.
    + unfold candidate32. rewrite <- app_assoc. reflexivity.
    + apply remove_file_spec_candidate32.
Qed.

Lemma app_nonempty_differs (b sub : wstring) : sub <> [] -> b ++ sub <> b.
Proof.
  intros Hs H. apply Hs. apply (app_inv_head b). rewrite app_nil_r. exact H.
Qed.

(** C4.  For every target the search resolves, the working directory given
    to [CreateProcessW] is the directory of the target: the target is that
    directory followed by [\firefox.exe], the directory is the install root
    followed by [\App\Firefox64] or [\App\Firefox], and it is not the
    install root. *)
Theorem C4_working_directory (m : machine) (b t : wstring) :
  resolve m = Some b -> select (files m) b = Some t ->
  exists dir,
    frame (after m) ff_dir = dir /\
    (exists c, EvCreateProcess t c DETACHED_PROCESS dir ∈ calls m) /\
    (forall a c fl d, EvCreateProcess a c fl d ∈ calls m -> d = dir) /\
    t = dir ++ L "\firefox.exe" /\
    (dir = b ++ L "\App\Firefox64" \/ dir = b ++ L "\App\Firefox") /\
    dir <> b.
Proof.
  intros Hr Hs.
  destruct (target_directory _ _ _ Hs) as (sub & Hsub & Ht & Hd).
  destruct (run_found m b t Hr Hs) as [_ HL].
  exists (b ++ sub). rewrite <- Hd.
  split; [apply HL |]. split.
  { exists (command_line t b). apply (process_request m b t Hr Hs). auto. }
  split.
  { intros a c fl d Hin. apply (process_request m b t Hr Hs) in Hin.
    apply Hin. }
  rewrite Hd. split; [exact Ht |]. split.
  - destruct Hsub as [-> | ->]; auto.
  - apply app_nonempty_differs. destruct Hsub as [-> | ->]; discriminate.
Qed.

Lemma C4_witness :
  resolve demo = Some demo_root /\
  select (files demo) demo_root
  = Some (L "C:\MyFox\App\Firefox64\firefox.exe") /\
  frame (after demo) ff_dir = L "C:\MyFox\App\Firefox64" /\
  exists dir,
    frame (after demo) ff_dir = dir /\
    (exists c,
       EvCreateProcess (L "C:\MyFox\App\Firefox64\firefox.exe") c
         DETACHED_PROCESS dir ∈ calls demo) /\
    dir <> demo_root.
Proof.
  split; [reflexivity |]. split; [reflexivity |]. split; [reflexivity |].
  destruct (C4_working_directory demo demo_root
              (L "C:\MyFox\App\Firefox64\firefox.exe") eq_refl eq_refl)
    as (dir & H1 & H2 & _ & _ & _ & H6).
  exists dir. auto.
Defined.

(** ** Directory creation *)

Lemma mkdir_files_existing (f : wstring -> option Z) (p : wstring)
    (fs : gmap wstring entry) (e : entry) :
  fs !! p = Some e -> mkdir_files f p fs = fs.
Proof. intros H. unfold mkdir_files. rewrite H. reflexivity. Qed.

Lemma mkdir_files_other (f : wstring -> option Z) (p q : wstring)
    (fs : gmap wstring entry) :
  q <> p -> mkdir_files f p fs !! q = fs !! q.
Proof.
  intros H. unfold mkdir_files. destruct (fs !! p); [reflexivity |].
  destruct (f p); [reflexivity |]. apply lookup_insert_ne. congruence.
Qed.

Lemma mkdir_files_kept (f : wstring -> option Z) (p q : wstring)
    (fs : gmap wstring entry) (e : entry) :
  fs !! q = Some e -> mkdir_files f p fs !! q = Some e.
Proof.
  intros H. destruct (decide (q = p)) as [-> | Hne].
  - rewrite (mkdir_files_existing _ _ _ _ H). exact H.
  - rewrite mkdir_files_other by assumption. exact H.
Qed.

(** Once a target is found, a dialog can only report a failed process
    creation. *)
Lemma launch_dialog (m : machine) (b t : wstring) :
  resolve m = Some b -> select (files m) b = Some t ->
  forall text caption type,
    EvMessageBox text caption type ∈ calls m ->
    exists err, spawn_result m b t = inl err.
Proof.
  intros Hr Hs. destruct (run_found m b t Hr Hs) as [He HL].
  pose proof (launched_calls _ _ _ _ _ eq_refl HL) as Hc.
  intros text caption type. rewrite Hc, !elem_of_app.
  intros [Hin | [Hin | Hin]].
  - unfold probes in Hin. destruct (files m !! candidate64 b);
      repeat (apply elem_of_cons in Hin as [Hin | Hin]; [discriminate |]);
      apply elem_of_nil in Hin; destruct Hin.
  - unfold launch_events in Hin.
    repeat (apply elem_of_cons in Hin as [Hin | Hin]; [discriminate |]).
    apply elem_of_nil in Hin. destruct Hin.
  - destruct (spawn_result m b t) as [err | i]; [eauto |].
    cbn [launch_closing] in Hin.
    repeat (apply elem_of_cons in Hin as [Hin | Hin]; [discriminate |]).
    apply elem_of_nil in Hin. destruct Hin.
Qed.

(** C6.  Once a target is found, the launcher asks for [<root>\Data] and
    then for [<root>\Data\profile], and goes on to [CreateProcessW] with the
    command line whatever the two calls report: nothing is assumed about
    what exists or about which creations fail.  The exit code depends on the
    process creation alone, and a directory that exists already is left as
    it is. *)
Theorem C6_directories_unchecked (m : machine) (b t : wstring) :
  resolve m = Some b -> select (files m) b = Some t ->
  calls m
  = probes (files m) b ++
    [EvCreateDirectory (b ++ L "\Data");
     EvCreateDirectory (b ++ L "\Data\profile");
     EvCreateProcess t (command_line t b) DETACHED_PROCESS
       (remove_file_spec t)] ++
    launch_closing (spawn_result m b t) /\
  exit_code m = launch_code (spawn_result m b t) /\
  (forall text caption type,
     EvMessageBox text caption type ∈ calls m ->
     exists err, spawn_result m b t = inl err) /\
  (forall q e, files m !! q = Some e -> files (after m) !! q = Some e).
Proof.
  intros Hr Hs. destruct (run_found m b t Hr Hs) as [He HL].
  pose proof (launched_calls _ _ _ _ _ eq_refl HL) as Hc.
  split; [exact Hc |]. split; [exact He |]. split.
  - apply (launch_dialog m b t Hr Hs).
  - intros q e Hq. destruct HL as (_ & -> & _). unfold prepared_files.
    do 2 apply mkdir_files_kept. exact Hq.
Qed.

Lemma C6_witness :
  resolve demo_locked = Some demo_root /\
  select (files demo_locked) demo_root = Some (candidate64 demo_root) /\
  mkdir_fault demo_locked (DataDirectory demo_root) = Some 5 /\
  mkdir_fault demo_locked (ProfileDirectory demo_root) = Some 5 /\
  calls demo_locked
  = [EvGetFileAttributes (candidate64 demo_root);
     EvCreateDirectory (L "C:\MyFox\Data");
     EvCreateDirectory (L "C:\MyFox\Data\profile");
     EvCreateProcess (candidate64 demo_root)
       (command_line (candidate64 demo_root) demo_root) DETACHED_PROCESS
       (L "C:\MyFox\App\Firefox64");
     EvCloseHandle 4; EvCloseHandle 8] /\
  exit_code demo_locked = 0.
Proof.
  split; [reflexivity |]. split; [reflexivity |].
  split; [reflexivity |]. split; [reflexivity |].
  destruct (C6_directories_unchecked demo_locked demo_root
              (candidate64 demo_root) eq_refl eq_refl) as (H1 & H2 & _).
  split; [exact H1 | exact H2].
Defined.



(** ** Exit codes *)

Lemma not_grown {A : Type} (l : list A) (x : A) : l <> l ++ [x].
Proof.
  intros H. apply (f_equal length) in H. rewrite length_app in H.
  cbn in H. lia.
Qed.

(** The exit code, the started process and the verdict go together. *)
Lemma verdict_sound (m : machine) :
  (exit_code m = 0 <-> spawned m) /\
  (spawned m <-> exists i, verdict m = inr i) /\
  exit_code m = match verdict m with inl _ => 1 | inr _ => 0 end.
Proof.
  unfold verdict, spawned. destruct (resolve m) as [b|] eqn:Hr.
  - destruct (select (files m) b) as [t|] eqn:Hs.
    + destruct (run_found m b t Hr Hs) as [He (_ & _ & Hc & _)].
      rewrite He, Hc.
      destruct (spawn_result m b t) as [e | i];
        cbn [launch_code launch_children].
      * rewrite app_nil_r. repeat split; try discriminate.
        -- intros [c Hc']. destruct (not_grown _ _ Hc').
        -- intros [c Hc']. destruct (not_grown _ _ Hc').
        -- intros [i Hi]. discriminate.
      * repeat split; eauto.
    + destruct (run_not_found m b Hr Hs) as (He & _ & _ & Hc & _).
      rewrite He, Hc. repeat split; try discriminate.
      * intros [c Hc']. destruct (not_grown _ _ Hc').
      * intros [c Hc']. destruct (not_grown _ _ Hc').
      * intros [i Hi]. discriminate.
  - destruct (run_query_fails m Hr) as (He & _ & _ & Hc & _).
    rewrite He, Hc. repeat split; try discriminate.
    + intros [c Hc']. destruct (not_grown _ _ Hc').
    + intros [c Hc']. destruct (not_grown _ _ Hc').
    + intros [i Hi]. discriminate.
Qed.

(** C7.  The exit code is 0 exactly when a child process was started, and
    it is 1 on every failure: the executable's path can not be resolved, no
    target is found, or the process creation fails. *)
Theorem C7_exit_codes (m : machine) :
  (exit_code m = 0 <-> spawned m) /\
  (spawned m <-> exists i, verdict m = inr i) /\
  exit_code m
  = match verdict m with
    | inl PathUnresolvable => 1
    | inl TargetNotFound => 1
    | inl (SpawnFailed _) => 1
    | inr _ => 0
    end.
Proof.
  destruct (verdict_sound m) as (H1 & H2 & H3).
  split; [exact H1 |]. split; [exact H2 |].
  rewrite H3. destruct (verdict m) as [[| |e] | i]; reflexivity.
Qed.

(** The three failures, each with exit code 1. *)
Lemma failure_exit_code (m : machine) (f : failure) :
  verdict m = inl f -> exit_code m = 1.
Proof.
  intros H. destruct (verdict_sound m) as (_ & _ & He).
  rewrite He, H. reflexivity.
Qed.

Example verdict_demo : verdict demo = inr demo_handles.
Proof. reflexivity. Qed.

Example verdict_bare : verdict demo_bare = inl TargetNotFound.
Proof. reflexivity. Qed.

Example verdict_lost : verdict demo_lost = inl PathUnresolvable.
Proof. reflexivity. Qed.

Example verdict_refused :
  verdict (boot (Some demo_exe) demo_fs (fun _ => None)
             (fun _ _ _ _ => inl 740) (fun _ => []))
  = inl (SpawnFailed 740).
Proof. reflexivity. Qed.

(** ** Running the launcher again *)

Lemma data_profile_differ (b : wstring) :
  DataDirectory b <> ProfileDirectory b.
Proof.
  unfold DataDirectory, ProfileDirectory. intros H%app_inv_head. discriminate.
Qed.

Lemma candidate_not_data (b t : wstring) :
  t = candidate64 b \/ t = candidate32 b ->
  t <> DataDirectory b /\ t <> ProfileDirectory b.
Proof.
  unfold candidate64, candidate32, DataDirectory, ProfileDirectory.
  intros [-> | ->]; split; intros H%app_inv_head; discriminate.
Qed.

Lemma mkdir_files_settled (f : wstring -> option Z) (p : wstring)
    (fs : gmap wstring entry) :
  settled f p (mkdir_files f p fs).
Proof.
  unfold settled, mkdir_files. destruct (fs !! p) eqn:E; [left; eauto |].
  destruct (f p) eqn:F; [right; eauto |].
  left. rewrite lookup_insert_eq. eauto.
Qed.

Lemma settled_mkdir_files (f : wstring -> option Z) (p q : wstring)
    (fs : gmap wstring entry) :
  settled f p fs -> settled f p (mkdir_files f q fs).
Proof.
  intros [[e He] | Hf]; [left | right; exact Hf].
  exists e. apply mkdir_files_kept. exact He.
Qed.

Lemma mkdir_files_again (f : wstring -> option Z) (p : wstring)
    (fs : gmap wstring entry) :
  settled f p fs -> mkdir_files f p fs = fs.
Proof.
  unfold mkdir_files. intros [[e He] | [z Hz]].
  - rewrite He. reflexivity.
  - destruct (fs !! p); [reflexivity |]. rewrite Hz. reflexivity.
Qed.

(** Attempting the two directories a second time changes nothing. *)
Lemma prepared_again (f : wstring -> option Z) (b : wstring)
    (fs : gmap wstring entry) :
  let once :=
    mkdir_files f (ProfileDirectory b) (mkdir_files f (DataDirectory b) fs) in
  mkdir_files f (ProfileDirectory b) (mkdir_files f (DataDirectory b) once)
  = once.
Proof.
  intros once.
  rewrite (mkdir_files_again f (DataDirectory b) once).
  - apply mkdir_files_again, mkdir_files_settled.
  - apply settled_mkdir_files, mkdir_files_settled.
Qed.

Lemma prepared_lookup (m : machine) (b t : wstring) :
  t = candidate64 b \/ t = candidate32 b ->
  prepared_files m b !! t = files m !! t.
Proof.
  intros [Hd Hp]%candidate_not_data. unfold prepared_files.
  rewrite !mkdir_files_other by assumption. reflexivity.
Qed.

(** The machine a run leaves answers the next run as the first. *)
Lemma second_run (m : machine) (b t : wstring) :
  resolve m = Some b -> select (files m) b = Some t ->
  resolve (after m) = Some b /\
  select (files (after m)) b = Some t /\
  probes (files (after m)) b = probes (files m) b /\
  prepared_files (after m) b = prepared_files m b /\
  spawn_result (after m) b t = spawn_result m b t.
Proof.
  intros Hr Hs. destruct (run_found m b t Hr Hs) as [_ HL].
  destruct HL as (_ & Hf & _ & _ & _ & _ & _ & _ & _ & Hm & Hk & Hsp).
  assert (Hp : prepared_files (after m) b = prepared_files m b).
  { unfold prepared_files at 1. rewrite Hk, Hf. apply prepared_again. }
  split; [unfold resolve; rewrite Hm; exact Hr |].
  split; [| split; [| split; [exact Hp |]]].
  - unfold select. rewrite Hf, !prepared_lookup by auto. exact Hs.
  - unfold probes. rewrite Hf, !prepared_lookup by auto. reflexivity.
  - unfold spawn_result. rewrite Hsp, Hp. reflexivity.
Qed.

(** C8.  Run the launcher, then run it again on the machine the first run
    leaves, on an installation whose [Data\profile] exists already.  Neither
    run stops at the directory creation: each asks for both directories,
    goes on to [CreateProcessW] with the same command line, and ends with
    the exit code of the process creation, 0 when it succeeds.  The second
    run makes the same calls as the first, the existing directory is left as
    it is, the second run leaves the file system as it finds it, and a
    dialog can only report a failed process creation. *)
Theorem C8_idempotent (m : machine) (b t : wstring) (e : entry) :
  resolve m = Some b -> select (files m) b = Some t ->
  files m !! (b ++ L "\Data\profile") = Some e ->
  let again := after m in
  let launch :=
    probes (files m) b ++
    [EvCreateDirectory (b ++ L "\Data");
     EvCreateDirectory (b ++ L "\Data\profile");
     EvCreateProcess t (command_line t b) DETACHED_PROCESS
       (remove_file_spec t)] ++
    launch_closing (spawn_result m b t) in
  calls m = launch /\
  calls again = launch /\
  exit_code m = launch_code (spawn_result m b t) /\
  exit_code again = launch_code (spawn_result m b t) /\
  calls again = calls m /\
  exit_code again = exit_code m /\
  frame (after again) cmdline = command_line t b /\
  frame (after m) cmdline = command_line t b /\
  files (after again) = files (after m) /\
  files (after m) !! (b ++ L "\Data\profile") = Some e /\
  (forall text caption type,
     EvMessageBox text caption type ∈ calls m ->
     exists err, spawn_result m b t = inl err).
Proof.
  intros Hr Hs He again launch. subst again launch.
  destruct (second_run m b t Hr Hs) as (Hr' & Hs' & Hp' & Hf' & Hsp').
  destruct (run_found m b t Hr Hs) as [Hx HL].
  destruct (run_found (after m) b t Hr' Hs') as [Hx' HL'].
  pose proof (launched_calls _ _ _ _ _ eq_refl HL) as Hc.
  pose proof (launched_calls _ _ _ _ _ eq_refl HL') as Hc'.
  rewrite Hp', Hsp' in Hc'. rewrite Hsp' in Hx'.
  split; [exact Hc |]. split; [exact Hc' |].
  split; [exact Hx |]. split; [exact Hx' |].
  split; [rewrite Hc, Hc'; reflexivity |].
  split; [rewrite Hx, Hx'; reflexivity |].
  split; [apply HL' |]. split; [apply HL |].
  split.
  { destruct HL' as (_ & -> & _). destruct HL as (_ & -> & _). exact Hf'. }
  split.
  { destruct HL as (_ & -> & _). unfold prepared_files.
    do 2 apply mkdir_files_kept. exact He. }
  apply (launch_dialog m b t Hr Hs).
Qed.

Lemma C8_witness :
  resolve demo_installed = Some demo_root /\
  select (files demo_installed) demo_root = Some (candidate64 demo_root) /\
  files demo_installed !! (demo_root ++ L "\Data\profile") = Some Directory /\
  calls demo_installed
  = [EvGetFileAttributes (candidate64 demo_root);
     EvCreateDirectory (L "C:\MyFox\Data");
     EvCreateDirectory (L "C:\MyFox\Data\profile");
     EvCreateProcess (candidate64 demo_root)
       (command_line (candidate64 demo_root) demo_root) DETACHED_PROCESS
       (L "C:\MyFox\App\Firefox64");
     EvCloseHandle 4; EvCloseHandle 8] /\
  calls (after demo_installed) = calls demo_installed /\
  exit_code demo_installed = 0 /\
  exit_code (after demo_installed) = 0 /\
  frame (after (after demo_installed)) cmdline
  = frame (after demo_installed) cmdline.
Proof.
  split; [reflexivity |]. split; [reflexivity |]. split; [reflexivity |].
  destruct (C8_idempotent demo_installed demo_root (candidate64 demo_root)
              Directory eq_refl eq_refl eq_refl)
    as (H1 & _ & H3 & H4 & H5 & _ & H7 & H8 & _).
  split; [exact H1 |]. split; [exact H5 |].
  split; [exact H3 |]. split; [exact H4 |].
  rewrite H8. exact H7.
Defined.

(** ** Buffer capacities *)

Lemma resolve_intro (m : machine) (p : wstring) :
  module_file_name m = Some p -> 0 < wcslen p < MAX_PATH ->
  resolve m = Some (InstallRoot p).
Proof.
  intros Hm Hl. unfold resolve. rewrite Hm, guard_pass by assumption.
  reflexivity.
Qed.

Lemma fits_intro (x : local) (s : wstring) :
  wcslen s < ARRAYSIZE x -> fits x s.
Proof. intros H. split; [exact H | apply strsafe_fit_ok, H]. Qed.

(** The strings derived from a root shorter than [MAX_PATH]. *)
Lemma derived_fit (b t : wstring) :
  wcslen b < MAX_PATH -> t = candidate64 b \/ t = candidate32 b ->
  fits ff_exe t /\ fits data_dir (DataDirectory b) /\
  fits profile (ProfileDirectory b) /\
  fits ff_dir t /\ fits ff_dir (remove_file_spec t) /\
  fits cmdline (command_line t b).
Proof.
  intros Hb Ht.
  assert (Hl : wcslen t <= wcslen b + 26).
  { destruct Ht as [-> | ->];
      [rewrite wcslen_candidate64 | rewrite wcslen_candidate32]; lia. }
  pose proof (remove_file_spec_length t) as Hd.
  pose proof (wcslen_DataDirectory b) as H1.
  pose proof (wcslen_ProfileDirectory b) as H2.
  pose proof (wcslen_command_line t b) as H3.
  change MAX_PATH with 260 in Hb.
  repeat split; try apply strsafe_fit_ok;
    match goal with
    | |- _ < ARRAYSIZE ?x =>
        let n := eval vm_compute in (ARRAYSIZE x) in
        change (ARRAYSIZE x) with n; lia
    end.
Qed.

(** C10.  For every module path that passes the startup guard (it is
    shorter than [MAX_PATH]), every string the launcher derives fits its
    array with the terminator: the root in [base], either candidate in
    [ff_exe], the data and profile directories, the working directory in
    [ff_dir], and the command line in [cmdline].  When a target is found the
    arrays hold these strings whole. *)
Theorem C10_no_truncation (m : machine) (p : wstring) :
  module_file_name m = Some p -> 0 < wcslen p < MAX_PATH ->
  let b := InstallRoot p in
  fits base p /\ fits base b /\
  fits ff_exe (b ++ L "\App\Firefox64\firefox.exe") /\
  fits ff_exe (b ++ L "\App\Firefox\firefox.exe") /\
  fits data_dir (b ++ L "\Data") /\
  fits profile (b ++ L "\Data\profile") /\
  (forall t, select (files m) b = Some t ->
     fits ff_dir (remove_file_spec t) /\
     fits cmdline (command_line t b) /\
     frame (after m) base = b /\
     frame (after m) ff_exe = t /\
     frame (after m) data_dir = b ++ L "\Data" /\
     frame (after m) profile = b ++ L "\Data\profile" /\
     frame (after m) ff_dir = remove_file_spec t /\
     frame (after m) cmdline = command_line t b).
Proof.
  intros Hm Hl b.
  pose proof (root_length p Hl) as Hb. fold b in Hb.
  assert (Hb' : wcslen b < MAX_PATH) by exact Hb.
  destruct (derived_fit b (candidate64 b) Hb' (or_introl eq_refl))
    as (F1 & F2 & F3 & _).
  destruct (derived_fit b (candidate32 b) Hb' (or_intror eq_refl))
    as (G1 & _).
  split; [apply fits_intro; exact (proj2 Hl) |].
  split; [apply fits_intro; exact Hb' |].
  split; [exact F1 |]. split; [exact G1 |].
  split; [exact F2 |]. split; [exact F3 |].
  intros t Hs.
  destruct (derived_fit b t Hb' (select_cases _ _ _ Hs))
    as (_ & _ & _ & _ & T1 & T2).
  destruct (run_found m b t (resolve_intro m p Hm Hl) Hs) as [_ HL].
  destruct HL as (_ & _ & _ & L1 & L2 & L3 & L4 & L5 & L6 & _).
  repeat split; solve [apply T1 | apply T2 | assumption].
Qed.

Lemma C10_witness :
  module_file_name demo = Some demo_exe /\
  0 < wcslen demo_exe < MAX_PATH /\
  fits cmdline (command_line (candidate64 demo_root) demo_root) /\
  frame (after demo) cmdline
  = command_line (candidate64 demo_root) demo_root.
Proof.
  split; [reflexivity |]. split; [split; reflexivity |].
  destruct (C10_no_truncation demo demo_exe eq_refl
              (conj eq_refl eq_refl)) as (_ & _ & _ & _ & _ & _ & H).
  destruct (H (candidate64 demo_root) eq_refl)
    as (_ & H2 & _ & _ & _ & _ & _ & H8).
  split; [exact H2 | exact H8].
Defined.

(** The longest root the guard lets through, written out: the command line
    has 582 code units for an array of 780. *)
Example longest_command_line :
  let b := replicate 259 LOWER_S in
  wcslen (command_line (candidate64 b) b) = 582 /\ ARRAYSIZE cmdline = 780.
Proof. vm_compute. split; reflexivity. Qed.

(** * Further properties of [wWinMain] *)

(** ** The calls of every run *)

Lemma calls_classified (m : machine) : calls m = expected_calls m.
Proof.
  unfold expected_calls. destruct (resolve m) as [b|] eqn:Hr.
  - destruct (select (files m) b) as [t|] eqn:Hs.
    + destruct (run_found m b t Hr Hs) as [_ HL].
      apply (launched_calls _ _ _ _ _ eq_refl HL).
    + apply (run_not_found m b Hr Hs).
  - apply (run_query_fails m Hr).
Qed.

(** Membership in a list that is written out. *)
Ltac enumerate Hin :=
  repeat (apply elem_of_cons in Hin as [Hin | Hin]; [try discriminate |]);
  try (apply elem_of_nil in Hin; destruct Hin).

Lemma probes_only_probe (fs : gmap wstring entry) (b : wstring) (x : event) :
  x ∈ probes fs b ->
  x = EvGetFileAttributes (candidate64 b) \/
  x = EvGetFileAttributes (candidate32 b) /\ fs !! candidate64 b = None.
Proof.
  unfold probes. destruct (fs !! candidate64 b); intros Hin;
    repeat (apply elem_of_cons in Hin as [Hin | Hin]; [auto |]);
    apply elem_of_nil in Hin; destruct Hin.
Qed.

(** ** The second candidate *)

(** X1.  With no entry at the first candidate and one at the second, the
    launcher checks both in order, takes [App\Firefox\firefox.exe] as the
    target and its directory as the working directory. *)
Theorem fallback_to_second_candidate (m : machine) (b : wstring) (e : entry) :
  resolve m = Some b ->
  files m !! (b ++ L "\App\Firefox64\firefox.exe") = None ->
  files m !! (b ++ L "\App\Firefox\firefox.exe") = Some e ->
  let target := b ++ L "\App\Firefox\firefox.exe" in
  frame (after m) ff_exe = target /\
  frame (after m) ff_dir = b ++ L "\App\Firefox" /\
  exists rest,
    calls m
    = [EvGetFileAttributes (b ++ L "\App\Firefox64\firefox.exe");
       EvGetFileAttributes target;
       EvCreateDirectory (b ++ L "\Data");
       EvCreateDirectory (b ++ L "\Data\profile");
       EvCreateProcess target (command_line target b) DETACHED_PROCESS
         (b ++ L "\App\Firefox")] ++ rest.
Proof.
  intros Hr H1 H2 target.
  assert (Hs : select (files m) b = Some (candidate32 b)).
  { unfold select, candidate64, candidate32. rewrite H1, H2. reflexivity. }
  assert (Hp : probes (files m) b
               = [EvGetFileAttributes (candidate64 b);
                  EvGetFileAttributes (candidate32 b)]).
  { unfold probes, candidate64. rewrite H1. reflexivity. }
  destruct (run_found m b _ Hr Hs) as [_ HL].
  pose proof (launched_calls _ _ _ _ _ eq_refl HL) as Hc.
  destruct HL as (_ & _ & _ & _ & F1 & _ & _ & _ & F2 & _).
  rewrite remove_file_spec_candidate32 in F2.
  split; [exact F1 |]. split; [exact F2 |].
  exists (launch_closing (spawn_result m b (candidate32 b))).
  rewrite Hc, Hp. unfold launch_events.
  rewrite remove_file_spec_candidate32. reflexivity.
Qed.

Lemma fallback_witness :
  resolve demo_32 = Some demo_root /\
  files demo_32 !! (demo_root ++ L "\App\Firefox64\firefox.exe") = None /\
  files demo_32 !! (demo_root ++ L "\App\Firefox\firefox.exe")
  = Some RegularFile /\
  frame (after demo_32) ff_exe = L "C:\MyFox\App\Firefox\firefox.exe" /\
  frame (after demo_32) ff_dir = L "C:\MyFox\App\Firefox".
Proof.
  split; [reflexivity |]. split; [reflexivity |]. split; [reflexivity |].
  destruct (fallback_to_second_candidate demo_32 demo_root RegularFile
              eq_refl eq_refl eq_refl) as (H1 & H2 & _).
  split; [exact H1 | exact H2].
Defined.

(** X2.  Once the root is resolved, the first candidate is always the first
    call, and the second candidate is checked exactly when nothing is at the
    first. *)
Theorem second_probe_iff_first_missing (m : machine) (b : wstring) :
  resolve m = Some b ->
  (exists rest,
     calls m = EvGetFileAttributes (b ++ L "\App\Firefox64\firefox.exe") :: rest)
  /\
  ((EvGetFileAttributes (b ++ L "\App\Firefox\firefox.exe") ∈ calls m) <->
   files m !! (b ++ L "\App\Firefox64\firefox.exe") = None).
Proof.
  intros Hr. rewrite calls_classified. unfold expected_calls. rewrite Hr.
  change (b ++ L "\App\Firefox64\firefox.exe") with (candidate64 b).
  change (b ++ L "\App\Firefox\firefox.exe") with (candidate32 b).
  destruct (select (files m) b) as [t|] eqn:Hs.
  - split.
    + unfold probes. destruct (files m !! candidate64 b); eexists; reflexivity.
    + split.
      * rewrite !elem_of_app. intros [Hin | [Hin | Hin]].
        -- apply probes_only_probe in Hin as [Hin | [_ Hn]]; [| exact Hn].
           injection Hin as Hin. destruct (candidates_differ b Hin).
        -- unfold launch_events in Hin. enumerate Hin.
        -- destruct (spawn_result m b t); cbn [launch_closing] in Hin;
             enumerate Hin.
      * intros Hn. apply elem_of_app. left. unfold probes. rewrite Hn.
        apply list_elem_of_further, list_elem_of_here.
  - split; [eexists; reflexivity |]. split.
    + intros _. unfold select in Hs.
      destruct (files m !! candidate64 b); [discriminate | reflexivity].
    + intros _. apply list_elem_of_further, list_elem_of_here.
Qed.

Lemma second_probe_witness :
  resolve demo_32 = Some demo_root /\
  EvGetFileAttributes (demo_root ++ L "\App\Firefox\firefox.exe")
    ∈ calls demo_32.
Proof.
  split; [reflexivity |].
  apply (proj2 (second_probe_iff_first_missing demo_32 demo_root eq_refl)).
  reflexivity.
Defined.

(** ** Dialogs and handles *)

Lemma probes_no_dialog (fs : gmap wstring entry) (b : wstring)
    (t c : wstring) (ty : Z) :
  EvMessageBox t c ty ∉ probes fs b.
Proof.
  intros Hin. apply probes_only_probe in Hin as [Hin | [Hin _]]; discriminate.
Qed.

Lemma launch_events_no_dialog (b t x c : wstring) (ty : Z) :
  EvMessageBox x c ty ∉ launch_events b t.
Proof. intros Hin. unfold launch_events in Hin. enumerate Hin. Qed.

Lemma probes_no_close (fs : gmap wstring entry) (b : wstring) (h : Z) :
  EvCloseHandle h ∉ probes fs b.
Proof.
  intros Hin. apply probes_only_probe in Hin as [Hin | [Hin _]]; discriminate.
Qed.

Lemma launch_events_no_close (b t : wstring) (h : Z) :
  EvCloseHandle h ∉ launch_events b t.
Proof. intros Hin. unfold launch_events in Hin. enumerate Hin. Qed.

(** X3.  A run that exits with 0 shows no dialog.  A run that exits with
    another code shows exactly one, with the caption [MyFox - Error] and the
    error icon, and the dialog is its last call. *)
Theorem one_dialog_on_failure (m : machine) :
  (exit_code m = 0 /\ forall t c ty, EvMessageBox t c ty ∉ calls m) \/
  (exit_code m = 1 /\
   exists before text,
     calls m
     = before ++ [EvMessageBox text (L "MyFox - Error") MB_ICONERROR] /\
     forall t c ty, EvMessageBox t c ty ∉ before).
Proof.
  rewrite calls_classified. unfold expected_calls.
  destruct (resolve m) as [b|] eqn:Hr.
  - destruct (select (files m) b) as [t|] eqn:Hs.
    + destruct (run_found m b t Hr Hs) as [He _]. rewrite He.
      destruct (spawn_result m b t) as [err | i];
        cbn [launch_code launch_closing].
      * right. split; [reflexivity |].
        exists (probes (files m) b ++ launch_events b t). eexists.
        split; [rewrite <- app_assoc; reflexivity |].
        intros x c ty [Hin | Hin]%elem_of_app.
        -- exact (probes_no_dialog _ _ _ _ _ Hin).
        -- exact (launch_events_no_dialog _ _ _ _ _ Hin).
      * left. split; [reflexivity |].
        intros x c ty Hin. rewrite !elem_of_app in Hin.
        destruct Hin as [Hin | [Hin | Hin]].
        -- exact (probes_no_dialog _ _ _ _ _ Hin).
        -- exact (launch_events_no_dialog _ _ _ _ _ Hin).
        -- enumerate Hin.
    + destruct (run_not_found m b Hr Hs) as [He _]. rewrite He.
      right. split; [reflexivity |].
      exists [EvGetFileAttributes (candidate64 b);
              EvGetFileAttributes (candidate32 b)], msg_not_found.
      split; [reflexivity |]. intros x c ty Hin. enumerate Hin.
  - destruct (run_query_fails m Hr) as [He _]. rewrite He.
    right. split; [reflexivity |]. exists [], msg_no_path.
    split; [reflexivity |]. intros x c ty Hin. enumerate Hin.
Qed.

(** X4.  When the process is created, the launcher closes the two handles
    it received, the process handle and then the thread handle, as its last
    two calls, and closes nothing else; on a failed run it closes no
    handle. *)
Theorem handles_released (m : machine) :
  match verdict m with
  | inr i =>
      exists before,
        calls m
        = before ++ [EvCloseHandle (hProcess i); EvCloseHandle (hThread i)] /\
        forall h, EvCloseHandle h ∉ before
  | inl _ => forall h, EvCloseHandle h ∉ calls m
  end.
Proof.
  rewrite calls_classified. unfold expected_calls, verdict.
  destruct (resolve m) as [b|] eqn:Hr.
  - destruct (select (files m) b) as [t|] eqn:Hs.
    + destruct (spawn_result m b t) as [err | i]; cbn [launch_closing].
      * intros h Hin. rewrite !elem_of_app in Hin.
        destruct Hin as [Hin | [Hin | Hin]].
        -- exact (probes_no_close _ _ _ Hin).
        -- exact (launch_events_no_close _ _ _ Hin).
        -- enumerate Hin.
      * exists (probes (files m) b ++ launch_events b t).
        split; [rewrite <- app_assoc; reflexivity |].
        intros h [Hin | Hin]%elem_of_app.
        -- exact (probes_no_close _ _ _ Hin).
        -- exact (launch_events_no_close _ _ _ Hin).
    + intros h Hin. enumerate Hin.
  - intros h Hin. enumerate Hin.
Qed.

(** ** Processes and files *)

(** X5.  A run starts at most one process and forgets none of those started
    before.  The one it starts is the resolved target, with the launcher's
    command line, the flag [DETACHED_PROCESS] and the target's directory as
    its working directory. *)
Theorem at_most_one_child (m : machine) :
  children (after m) = children m \/
  exists b t i,
    resolve m = Some b /\ select (files m) b = Some t /\
    spawn_result m b t = inr i /\
    children (after m)
    = children m ++
      [{| child_application := t; child_command_line := command_line t b;
          child_creation_flags := DETACHED_PROCESS;
          child_directory := remove_file_spec t; child_info := i |}].
Proof.
  destruct (resolve m) as [b|] eqn:Hr.
  - destruct (select (files m) b) as [t|] eqn:Hs.
    + destruct (run_found m b t Hr Hs) as [_ (_ & _ & Hc & _)].
      destruct (spawn_result m b t) as [err | i] eqn:Hsp;
        cbn [launch_children] in Hc.
      * left. rewrite Hc. apply app_nil_r.
      * right. exists b, t, i. auto.
    + left. apply (run_not_found m b Hr Hs).
  - left. apply (run_query_fails m Hr).
Qed.

Lemma mkdir_files_new (f : wstring -> option Z) (p q : wstring)
    (fs : gmap wstring entry) (e : entry) :
  mkdir_files f p fs !! q = Some e ->
  fs !! q = Some e \/ (q = p /\ e = Directory /\ fs !! p = None).
Proof.
  unfold mkdir_files. destruct (fs !! p) eqn:Hp; [auto |].
  destruct (f p); [auto |].
  destruct (decide (q = p)) as [-> | Hne].
  - rewrite lookup_insert_eq. intros [= <-]. auto.
  - rewrite lookup_insert_ne by congruence. auto.
Qed.

Lemma files_after (m : machine) :
  files (after m) = files m \/
  exists b, resolve m = Some b /\ files (after m) = prepared_files m b.
Proof.
  destruct (resolve m) as [b|] eqn:Hr.
  - destruct (select (files m) b) as [t|] eqn:Hs.
    + right. exists b. split; [reflexivity |].
      apply (run_found m b t Hr Hs).
    + left. apply (run_not_found m b Hr Hs).
  - left. apply (run_query_fails m Hr).
Qed.

(** X6.  A run removes and replaces nothing in the file system: every entry
    is still there afterwards, of the same kind.  What it adds is at most
    the directories [<root>\Data] and [<root>\Data\profile]. *)
Theorem file_system_only_grows (m : machine) (q : wstring) (e : entry) :
  (files m !! q = Some e -> files (after m) !! q = Some e) /\
  (files (after m) !! q = Some e ->
   files m !! q = Some e \/
   e = Directory /\
   exists b, resolve m = Some b /\
             (q = b ++ L "\Data" \/ q = b ++ L "\Data\profile")).
Proof.
  destruct (files_after m) as [-> | (b & Hr & ->)]; [auto |].
  unfold prepared_files. split.
  - intros H. do 2 apply mkdir_files_kept. exact H.
  - intros [H | (-> & -> & _)]%mkdir_files_new.
    + apply mkdir_files_new in H as [H | (-> & -> & _)]; [auto |].
      right. split; [reflexivity |]. exists b. auto.
    + right. split; [reflexivity |]. exists b. auto.
Qed.

(** X7.  When a target is found and nothing prevents the creation of the
    two directories, both exist once the launcher returns, whether or not
    the process creation succeeds. *)
Theorem directories_exist_after (m : machine) (b t : wstring) :
  resolve m = Some b -> select (files m) b = Some t ->
  mkdir_fault m (b ++ L "\Data") = None ->
  mkdir_fault m (b ++ L "\Data\profile") = None ->
  is_Some (files (after m) !! (b ++ L "\Data")) /\
  is_Some (files (after m) !! (b ++ L "\Data\profile")).
Proof.
  intros Hr Hs Hd Hp.
  destruct (run_found m b t Hr Hs) as [_ (_ & -> & _)].
  unfold prepared_files.
  pose proof (mkdir_files_settled (mkdir_fault m) (DataDirectory b) (files m))
    as [H1 | [z Hz]]; [| unfold DataDirectory in Hz; congruence].
  pose proof (mkdir_files_settled (mkdir_fault m) (ProfileDirectory b)
                (mkdir_files (mkdir_fault m) (DataDirectory b) (files m)))
    as [H2 | [z Hz]]; [| unfold ProfileDirectory in Hz; congruence].
  split; [| exact H2].
  destruct H1 as [e He]. exists e. apply mkdir_files_kept. exact He.
Qed.

Lemma directories_exist_witness :
  resolve demo = Some demo_root /\
  select (files demo) demo_root = Some (candidate64 demo_root) /\
  files demo !! (demo_root ++ L "\Data") = None /\
  is_Some (files (after demo) !! (demo_root ++ L "\Data")) /\
  is_Some (files (after demo) !! (demo_root ++ L "\Data\profile")).
Proof.
  split; [reflexivity |]. split; [reflexivity |]. split; [reflexivity |].
  apply (directories_exist_after demo demo_root (candidate64 demo_root));
    reflexivity.
Defined.

(** ** What the launcher does not read *)

(** X8.  The arrays of the frame, [pi], the last error and the calls made
    before are not inputs of the launcher: two machines with the same
    executable path, file system and answers to directory and process
    creation run alike, whatever these hold at the start.  No array is read
    before it is written. *)
Theorem leftovers_ignored (m m' : machine) :
  module_file_name m' = module_file_name m ->
  files m' = files m ->
  mkdir_fault m' = mkdir_fault m ->
  spawn m' = spawn m ->
  calls m' = calls m /\
  exit_code m' = exit_code m /\
  files (after m') = files (after m).
Proof.
  intros Hm Hf Hk Hs.
  assert (Hr : resolve m' = resolve m) by (unfold resolve; rewrite Hm; reflexivity).
  assert (Hp : forall b, prepared_files m' b = prepared_files m b)
    by (intros b; unfold prepared_files; rewrite Hk, Hf; reflexivity).
  assert (Hsp : forall b t, spawn_result m' b t = spawn_result m b t)
    by (intros b t; unfold spawn_result; rewrite Hs, Hp; reflexivity).
  split.
  { rewrite !calls_classified. unfold expected_calls. rewrite Hr, Hf.
    destruct (resolve m) as [b|]; [| reflexivity].
    destruct (select (files m) b) as [t|]; [| reflexivity].
    rewrite Hsp. reflexivity. }
  split.
  { destruct (verdict_sound m) as (_ & _ & ->).
    destruct (verdict_sound m') as (_ & _ & ->).
    unfold verdict. rewrite Hr, Hf.
    destruct (resolve m) as [b|]; [| reflexivity].
    destruct (select (files m) b) as [t|]; [| reflexivity].
    rewrite Hsp. reflexivity. }
  destruct (resolve m) as [b|] eqn:Hb.
  - destruct (select (files m) b) as [t|] eqn:Ht.
    + assert (Ht' : select (files m') b = Some t) by (rewrite Hf; exact Ht).
      destruct (run_found m b t Hb Ht) as [_ (_ & -> & _)].
      destruct (run_found m' b t Hr Ht') as [_ (_ & -> & _)]. apply Hp.
    + assert (Ht' : select (files m') b = None) by (rewrite Hf; exact Ht).
      destruct (run_not_found m b Hb Ht) as (_ & _ & -> & _).
      destruct (run_not_found m' b Hr Ht') as (_ & _ & -> & _). exact Hf.
  - destruct (run_query_fails m Hb) as (_ & _ & -> & _).
    destruct (run_query_fails m' Hr) as (_ & _ & -> & _). exact Hf.
Qed.

Lemma leftovers_witness :
  frame demo_dirty ff_exe <> frame demo ff_exe /\
  last_error demo_dirty <> last_error demo /\
  calls demo_dirty = calls demo /\
  exit_code demo_dirty = exit_code demo /\
  files (after demo_dirty) = files (after demo).
Proof.
  split; [discriminate |]. split; [discriminate |].
  apply (leftovers_ignored demo demo_dirty); reflexivity.
Defined.

(** ** The dialog of a failed process creation *)









Example demo_refused_text :
  last (calls demo_refused)
  = Some (EvMessageBox
            (L "Failed to launch Firefox." ++ [NEWLINE; NEWLINE] ++
             L "Error code: 740")
            (L "MyFox - Error") MB_ICONERROR).
Proof. reflexivity. Qed.

(** ** The install root *)

Lemma first_call_resolved (m : machine) (b : wstring) :
  resolve m = Some b ->
  exists rest, calls m = EvGetFileAttributes (candidate64 b) :: rest.
Proof.
  intros Hr. rewrite calls_classified. unfold expected_calls. rewrite Hr.
  destruct (select (files m) b); [| eexists; reflexivity].
  unfold probes. destruct (files m !! candidate64 b); eexists; reflexivity.
Qed.

(** X10.  For an executable at [dir\name], where [name] has neither
    backslash nor colon and [dir] has more than two code units and does not
    end in a colon, the install root is [dir]: whatever the name of the
    launcher, the first thing it does is to look for
    [dir\App\Firefox64\firefox.exe]. *)
Theorem root_is_containing_directory (m : machine) (dir name : wstring)
    (x : WCHAR) :
  module_file_name m = Some (dir ++ BACKSLASH :: name) ->
  plain name -> (2 < length dir)%nat -> last dir = Some x -> x <> COLON ->
  wcslen (dir ++ BACKSLASH :: name) < MAX_PATH ->
  resolve m = Some dir /\
  exists rest,
    calls m
    = EvGetFileAttributes (dir ++ L "\App\Firefox64\firefox.exe") :: rest.
Proof.
  intros Hm Hn Hl Hx Hc Hp.
  assert (Hr : resolve m = Some dir).
  { rewrite (resolve_intro m _ Hm).
    - unfold InstallRoot.
      rewrite (remove_file_spec_last dir name x) by assumption. reflexivity.
    - split; [| exact Hp]. rewrite wcslen_app. unfold wcslen.
      cbn [length]. lia. }
  split; [exact Hr |]. apply (first_call_resolved m dir Hr).
Qed.

Lemma root_witness :
  module_file_name demo = Some (L "C:\MyFox" ++ BACKSLASH :: L "MyFox.exe") /\
  resolve demo = Some (L "C:\MyFox") /\
  exists rest,
    calls demo
    = EvGetFileAttributes (L "C:\MyFox" ++ L "\App\Firefox64\firefox.exe")
      :: rest.
Proof.
  split; [reflexivity |].
  apply (root_is_containing_directory demo (L "C:\MyFox") (L "MyFox.exe")
           120%positive).
  - reflexivity.
  - unfold plain. repeat constructor; discriminate.
  - cbn. lia.
  - reflexivity.
  - discriminate.
  - reflexivity.
Defined.

Lemma remove_file_spec_in_drive_root (c : WCHAR) (name : wstring) :
  c <> BACKSLASH -> c <> COLON -> plain name ->
  remove_file_spec ([c; COLON; BACKSLASH] ++ name) = [c; COLON; BACKSLASH].
Proof.
  intros Hb Hc Hn. apply Pos.eqb_neq in Hb, Hc.
  unfold remove_file_spec. apply take_app_length'.
  unfold file_spec_index, skip_leading_backslash.
  cbn [app fst snd]. rewrite Hb. cbn [fst snd]. rewrite Hb.
  cbn [file_spec_scan]. rewrite Hb, Hc.
  change (Pos.eqb COLON BACKSLASH) with false.
  change (Pos.eqb COLON COLON) with true. cbn iota.
  rewrite file_spec_scan_plain by assumption. reflexivity.
Qed.

(** X11.  A launcher in the root of a drive, [c:\name]: the root keeps its
    backslash, [c:\], and as the paths are built by putting [\App...] behind
    the root, the path that is checked has two backslashes after the
    colon. *)
Theorem launcher_in_drive_root (m : machine) (c : WCHAR) (name : wstring) :
  module_file_name m = Some ([c; COLON; BACKSLASH] ++ name) ->
  c <> BACKSLASH -> c <> COLON -> plain name ->
  wcslen ([c; COLON; BACKSLASH] ++ name) < MAX_PATH ->
  resolve m = Some [c; COLON; BACKSLASH] /\
  exists rest,
    calls m
    = EvGetFileAttributes
        ([c; COLON; BACKSLASH; BACKSLASH] ++ L "App\Firefox64\firefox.exe")
      :: rest.
Proof.
  intros Hm Hb Hc Hn Hp.
  assert (Hr : resolve m = Some [c; COLON; BACKSLASH]).
  { rewrite (resolve_intro m _ Hm).
    - unfold InstallRoot.
      rewrite remove_file_spec_in_drive_root by assumption. reflexivity.
    - split; [| exact Hp]. rewrite wcslen_app. unfold wcslen.
      cbn [length]. lia. }
  split; [exact Hr |]. apply (first_call_resolved m _ Hr).
Qed.

Lemma drive_root_witness :
  module_file_name demo_drive_root = Some (L "C:\" ++ L "MyFox.exe") /\
  resolve demo_drive_root = Some (L "C:\") /\
  exists rest,
    calls demo_drive_root
    = EvGetFileAttributes (L "C:\\App\Firefox64\firefox.exe") :: rest.
Proof.
  split; [reflexivity |].
  apply (launcher_in_drive_root demo_drive_root 67%positive (L "MyFox.exe")).
  - reflexivity.
  - discriminate.
  - discriminate.
  - unfold plain. repeat constructor; discriminate.
  - reflexivity.
Defined.
